(** * The build pipe of goreleaser (internal/pipe/build/build.go)

    A shallow embedding of the build pipe: the option resolver
    ([buildOptionsForTarget], [extFor]), the hook runner ([runHook], [run]),
    the module proxy ([proxy]), the defaulting pass ([Default],
    [buildWithDefaults]) and the executor ([Run], [runPipeOnBuild]).

    Go strings are byte strings and are modelled by [string]; slices by
    [list]; a Go [error] result by [option error]; a pair [(T, error)] by
    [result T] or, where the source returns a meaningful value next to the
    error, by a pair.  Effects (logging, the file system, subprocesses, the
    language builder) go through a state monad over an abstract world and
    an execution trace; a runtime panic is a separate outcome. *)

From Stdlib Require Import Ascii String NArith.
From stdpp Require Import base option list strings gmap.

Local Open Scope string_scope.
Local Open Scope list_scope.

(** ** Go's [strings] package, as far as the pipe uses it *)

Module Strings.

(** [strings.HasPrefix(s, prefix)] *)
Fixpoint HasPrefix (s prefix : string) {struct prefix} : bool :=
  match prefix with
  | EmptyString => true
  | String p prefix' =>
      match s with
      | EmptyString => false
      | String c s' => if Ascii.eqb c p then HasPrefix s' prefix' else false
      end
  end.

(** [strings.Contains(s, substr)]: [substr] starts at some offset of [s]. *)
Fixpoint Contains (s substr : string) : bool :=
  HasPrefix s substr ||
  match s with
  | EmptyString => false
  | String _ s' => Contains s' substr
  end.

(** The scan of [strings.Split] for a non-empty separator: [cur] is the
    piece read so far, [skip] the number of separator bytes still to be
    jumped over after a match. *)
Fixpoint split_from (sep : string) (skip : nat) (cur s : string) : list string :=
  match s with
  | EmptyString => [cur]
  | String c s' =>
      match skip with
      | S k => split_from sep k cur s'
      | O =>
          if HasPrefix s sep
          then cur :: split_from sep (String.length sep - 1) "" s'
          else split_from sep 0 (cur +:+ String c "") s'
      end
  end.

(** With an empty separator Go splits after each UTF-8 sequence; the pipe
    only ever splits at ["_"], and the model splits after each byte. *)
Fixpoint explode (s : string) : list string :=
  match s with
  | EmptyString => []
  | String c s' => String c "" :: explode s'
  end.

(** [strings.Split(s, sep)] *)
Definition Split (s sep : string) : list string :=
  match sep with
  | EmptyString => explode s
  | String _ _ => split_from sep 0 "" s
  end.

End Strings.

(** ** Go's [os.ExpandEnv] (os/env.go), the expansion applied to [Env] *)

Module Os.

Definition byte_in (lo hi c : ascii) : bool :=
  (N_of_ascii lo <=? N_of_ascii c)%N && (N_of_ascii c <=? N_of_ascii hi)%N.

(** [isShellSpecialVar]: one of [* # $ @ ! ? -] or a digit. *)
Definition isShellSpecialVar (c : ascii) : bool :=
  existsb (Ascii.eqb c) ["*"; "#"; "$"; "@"; "!"; "?"; "-"]%char
  || byte_in "0" "9" c.

(** [isAlphaNum]: an underscore, a digit or an ASCII letter. *)
Definition isAlphaNum (c : ascii) : bool :=
  Ascii.eqb c "_" || byte_in "0" "9" c || byte_in "a" "z" c || byte_in "A" "Z" c.

Fixpoint drop_bytes (n : nat) (s : string) : string :=
  match n, s with
  | S n', String _ s' => drop_bytes n' s'
  | _, _ => s
  end.

Fixpoint take_bytes (n : nat) (s : string) : string :=
  match n, s with
  | S n', String c s' => String c (take_bytes n' s')
  | _, _ => ""
  end.

(** Offset of the first closing brace, if there is one. *)
Fixpoint index_brace (s : string) : option nat :=
  match s with
  | EmptyString => None
  | String c s' =>
      if Ascii.eqb c "}" then Some 0 else S <$> index_brace s'
  end.

(** Number of leading bytes that satisfy [isAlphaNum]. *)
Fixpoint alnum_run (s : string) : nat :=
  match s with
  | EmptyString => 0
  | String c s' => if isAlphaNum c then S (alnum_run s') else 0
  end.

(** [getShellName(s)] for a non-empty [s]: the name that follows a dollar
    sign and the number of bytes it takes up. *)
Definition getShellName (s : string) : string * nat :=
  match s with
  | EmptyString => ("", 0)
  | String c0 rest =>
      if Ascii.eqb c0 "{" then
        let special :=
          match rest with
          | String c1 (String c2 _) => isShellSpecialVar c1 && Ascii.eqb c2 "}"
          | _ => false
          end in
        if special then (take_bytes 1 rest, 3)
        else
          match index_brace rest with
          | Some 0 => ("", 2)
          | Some k => (take_bytes k rest, k + 2)
          | None => ("", 1)
          end
      else if isShellSpecialVar c0 then (String c0 "", 1)
      else let i := alnum_run s in (take_bytes i s, i)
  end.

(** The loop of [os.Expand]; [fuel] bounds the bytes still to be read. *)
Fixpoint expand_go (fuel : nat) (mapping : string -> string) (s : string) : string :=
  match fuel with
  | O => s
  | S fuel' =>
      match s with
      | EmptyString => ""
      | String c rest =>
          if Ascii.eqb c "$" && negb (String.eqb rest "") then
            let '(name, w) := getShellName rest in
            let piece :=
              if String.eqb name "" then (if (0 <? w)%nat then "" else "$")
              else mapping name in
            piece +:+ expand_go fuel' mapping (drop_bytes w rest)
          else String c (expand_go fuel' mapping rest)
      end
  end.

(** [os.Expand(s, mapping)] *)
Definition Expand (s : string) (mapping : string -> string) : string :=
  expand_go (String.length s) mapping s.

End Os.

(** A process environment used in the examples: [A] holds the text of a
    reference to [B]. *)
Definition sample_getenv (name : string) : string :=
  if String.eqb name "A" then "$B"
  else if String.eqb name "B" then "x"
  else if String.eqb name "HOME" then "/root"
  else "".

(** ** Errors *)

(** A Go [error] value. [Failure] is an error made by a collaborator;
    [Errorf format args cause] is [fmt.Errorf(format, ...)] with one [%w]
    verb wrapping [cause] and the string arguments [args]; [DuplicateIDs]
    is the validation error of the identifier registry and [Multiple] the
    error of a task group that carries the errors of its tasks. *)
#[local] Set Warnings "-register-all".
Inductive error : Type :=
| Failure (msg : string)
| Errorf (format : string) (args : list string) (cause : error)
| DuplicateIDs (kind : string)
| Multiple (errs : list error).

(** A Go result pair [(T, error)] whose value is only read when the error
    is nil. *)
Inductive result (A : Type) : Type :=
| Ok (a : A)
| Error (e : error).
Arguments Ok {A} a.
Arguments Error {A} e.

(** ** Configuration (pkg/config), the fields the pipe reads or writes *)

Module Hook.
Record t : Type := Make { Dir : string; Cmd : string; Env : list string }.
End Hook.

Module BuildProxy.
Record t : Type := Make { Path : string; Version : string }.
End BuildProxy.

Module HookConfig.
Record t : Type := Make { Pre : list Hook.t; Post : list Hook.t }.
End HookConfig.

Module Build.
Record t : Type := Make {
  ID : string;
  Lang : string;
  Binary : string;
  Targets : list string;
  Env : list string;
  Hooks : HookConfig.t;
  Proxy : option BuildProxy.t;
  Dir : string;
  Main : string;
  Skip : bool;
  Flags : list string
}.

Definition set_ID (v : string) (b : t) : t :=
  Make v (Lang b) (Binary b) (Targets b) (Env b) (Hooks b) (Proxy b)
       (Dir b) (Main b) (Skip b) (Flags b).
Definition set_Lang (v : string) (b : t) : t :=
  Make (ID b) v (Binary b) (Targets b) (Env b) (Hooks b) (Proxy b)
       (Dir b) (Main b) (Skip b) (Flags b).
Definition set_Binary (v : string) (b : t) : t :=
  Make (ID b) (Lang b) v (Targets b) (Env b) (Hooks b) (Proxy b)
       (Dir b) (Main b) (Skip b) (Flags b).
Definition set_Env (v : list string) (b : t) : t :=
  Make (ID b) (Lang b) (Binary b) (Targets b) v (Hooks b) (Proxy b)
       (Dir b) (Main b) (Skip b) (Flags b).
Definition set_Dir (v : string) (b : t) : t :=
  Make (ID b) (Lang b) (Binary b) (Targets b) (Env b) (Hooks b) (Proxy b)
       v (Main b) (Skip b) (Flags b).
Definition set_Main (v : string) (b : t) : t :=
  Make (ID b) (Lang b) (Binary b) (Targets b) (Env b) (Hooks b) (Proxy b)
       (Dir b) v (Skip b) (Flags b).

(** Modelled from the spec: [IsProxied] (pkg/config is not among the
    sources).  The proxy applies only when the build definition declares
    a proxy configuration. *)
Definition IsProxied (b : t) : bool :=
  match Proxy b with Some _ => true | None => false end.
End Build.

Module Project.
Record t : Type := Make {
  ProjectName : string;
  Dist : string;
  Builds : list Build.t;
  SingleBuild : Build.t
}.

Definition set_Builds (v : list Build.t) (p : t) : t :=
  Make (ProjectName p) (Dist p) v (SingleBuild p).
Definition set_SingleBuild (v : Build.t) (p : t) : t :=
  Make (ProjectName p) (Dist p) (Builds p) v.
End Project.

(** [context.Context]; [Env] is the list that [ctx.Env.Strings()] returns. *)
Module Context.
Record t : Type := Make {
  Config : Project.t;
  Env : list string;
  Parallelism : nat;
  SkipPostBuildHooks : bool
}.

Definition set_Config (v : Project.t) (c : t) : t :=
  Make v (Env c) (Parallelism c) (SkipPostBuildHooks c).
End Context.

(** [builders.Options] (pkg/build) *)
Module Options.
Record t : Type := Make {
  Target : string;
  Ext : string;
  Os : string;
  Arch : string;
  Name : string;
  Path : string
}.

Definition set_Name (v : string) (o : t) : t :=
  Make (Target o) (Ext o) (Os o) (Arch o) v (Path o).
Definition set_Path (v : string) (o : t) : t :=
  Make (Target o) (Ext o) (Os o) (Arch o) (Name o) v.
End Options.

(** The data a template is applied to (internal/tmpl): the context, the
    build options, an environment overlay and extra fields. *)
Module Template.
Record t : Type := Make {
  ctx : Context.t;
  opts : option Options.t;
  env : option (list string);
  fields : list (string * string)
}.

Definition New (c : Context.t) : t := Make c None None [].
Definition WithBuildOptions (o : Options.t) (tp : t) : t :=
  Make (ctx tp) (Some o) (env tp) (fields tp).
Definition WithEnvS (e : list string) (tp : t) : t :=
  Make (ctx tp) (opts tp) (Some e) (fields tp).
Definition WithExtraFields (fs : list (string * string)) (tp : t) : t :=
  Make (ctx tp) (opts tp) (env tp) (fields tp ++ fs).
End Template.

(** ** Effects *)

(** Calls that leave the process or touch the file system. *)
Inductive Call : Type :=
| Mkdir (dir : string)
| WriteFile (path content : string)
| OpenRead (path : string)
| OpenWrite (path : string)
| Copy (dst src : string)
| Exec (dir : string) (argv : list string) (env : option (list string))
| BuilderBuild (lang : string) (ctx : Context.t) (build : Build.t) (opts : Options.t).

Inductive Level : Type := Debug | Info.

Inductive LogValue : Type :=
| VString (s : string)
| VStrings (l : list string)
| VBuild (b : Build.t)
| VError (e : error).

Inductive Event : Type :=
| Logged (lvl : Level) (fields : list (string * LogValue)) (msg : string)
| GroupGo
| Called (c : Call).

(** The collaborators of the pipe.  [perform] answers a call with the
    combined output and the error of the call and moves the world on. *)
Class External : Type := {
  World : Type;
  perform : Call -> World -> (string * option error) * World;
  os_Getenv : string -> string;
  tmpl_Apply : Template.t -> string -> result string;
  shellwords_Parse : string -> result (list string);
  filepath_Join : list string -> string;
  filepath_Abs : string -> result string;
  builder_WithDefaults : string -> Build.t -> result Build.t
}.

(** A computation either returns or panics. *)
Inductive Outcome (A : Type) : Type :=
| Done (a : A)
| Panicked (msg : string).
Arguments Done {A} a.
Arguments Panicked {A} msg.

Section Monad.
Context `{External}.

Record State : Type := MkState { world : World; trace : list Event }.

Definition M (A : Type) : Type := State -> Outcome A * State.

Definition ret {A} (a : A) : M A := fun st => (Done a, st).

Definition bind {A B} (c : M A) (k : A -> M B) : M B :=
  fun st =>
    match c st with
    | (Done a, st') => k a st'
    | (Panicked msg, st') => (Panicked msg, st')
    end.

Definition panic {A} (msg : string) : M A := fun st => (Panicked msg, st).

Definition emit (e : Event) : M unit :=
  fun st => (Done tt, MkState (world st) (trace st ++ [e])).

Definition log (lvl : Level) (fields : list (string * LogValue)) (msg : string) : M unit :=
  emit (Logged lvl fields msg).

(** A call is recorded in the trace and answered by the world. *)
Definition call (c : Call) : M (string * option error) :=
  fun st =>
    let '(r, w) := perform c (world st) in
    (Done r, MkState w (trace st ++ [Called c])).

End Monad.

Notation "x <- c ;; k" := (bind c (fun x => k))
  (at level 100, c at next level, right associativity, only parsing).
Notation "c ;;; k" := (bind c (fun _ => k))
  (at level 100, right associativity, only parsing).

(** The calls among the events of a trace, in order. *)
Definition calls (evs : list Event) : list Call :=
  omap (fun ev => match ev with Called c => Some c | _ => None end) evs.

(** The number of tasks handed to a group and the number of calls of the
    builder in a trace. *)
Definition scheduledTasks (tr : list Event) : nat :=
  length (List.filter (fun ev => match ev with GroupGo => true | _ => false end) tr).

Definition builderCalls (tr : list Event) : nat :=
  length (List.filter
            (fun ev => match ev with
                       | Called (BuilderBuild _ _ _ _) => true
                       | _ => false
                       end) tr).

(** [x <-? r 'or' h ;; k]: the Go idiom
    [x, err := r; if err != nil { return h(err) }; k]. *)
Notation "x <-? r 'or' h ;; k" :=
  (match r with Ok x => k | Error e => h e end)
  (at level 100, r at next level, h at level 9, right associativity, only parsing).

(** [c 'orelse' h ;; k]: the same idiom around a call that only returns an
    error; [h] also receives the output of the call. *)
Notation "c 'orelse' h ;; k" :=
  (bind (call c) (fun r => match snd r with Some e => h (fst r) e | None => k end))
  (at level 100, h at level 9, right associativity, only parsing).

(** ** Collaborators inside the repository *)

(** The identifier registry (internal/ids), which is not among the
    sources. *)
Module ids.
(** Modelled from the spec: the registry of internal/ids, which tracks the
    assigned build IDs to guarantee their uniqueness; here it counts how
    often each ID was assigned. *)
Record IDs : Type := Make { kind : string; count : gmap string nat }.

(** Modelled from the spec: [ids.New] of internal/ids, an empty registry
    for one kind of definition. *)
Definition New (kind : string) : IDs := Make kind ∅.

(** Modelled from the spec: [Inc] of internal/ids, which records one more
    definition with the ID. *)
Definition Inc (id : string) (i : IDs) : IDs :=
  Make (kind i) (<[id := S (default 0 (count i !! id))]> (count i)).

(** Modelled from the spec: [Validate] of internal/ids, which signals a
    validation error if any two definitions share an ID. *)
Definition Validate (i : IDs) : option error :=
  if decide (map_Forall (fun _ n => n <= 1) (count i)) then None
  else Some (DuplicateIDs (kind i)).
End ids.

(** The task group (internal/semerrgroup), which is not among the sources.
    The tasks of a build do not write shared state, and the model runs
    them one after the other in the order of the calls to [Go]; the bound
    on the number of tasks in flight is kept but has no effect on that
    schedule. *)
Module semerrgroup.
Section Group.
Context `{External}.

(** Modelled from the spec: the group of internal/semerrgroup, with its
    bound on the tasks in flight and the errors collected so far. *)
Record Group : Type := Make { size : nat; errs : list error }.

(** Modelled from the spec: [semerrgroup.New]. *)
Definition New (size : nat) : Group := Make size [].

(** Modelled from the spec: [Go] of internal/semerrgroup.  The task runs to
    its end whatever the other tasks returned, and its error is kept. *)
Definition Go (g : Group) (task : M (option error)) : M Group :=
  emit GroupGo ;;;
  r <- task ;;
  match r with
  | Some err => ret (Make (size g) (errs g ++ [err]))
  | None => ret g
  end.

(** Modelled from the spec: [Wait] of internal/semerrgroup.  The aggregate
    fails if any task failed and carries the error of every failed task. *)
Definition Wait (g : Group) : M (option error) :=
  match errs g with
  | [] => ret None
  | _ :: _ => ret (Some (Multiple (errs g)))
  end.
End Group.
End semerrgroup.

(** ** The pipe *)

Section Pipe.
Context `{External}.

(** *** Option resolver *)

(** The loop of [extFor] over the flags; [None] when it falls through. *)
Fixpoint extFor_flags (flags : list string) : option string :=
  match flags with
  | [] => None
  | s :: flags' =>
      if String.eqb s "-buildmode=c-shared" then Some ".dll"
      else if String.eqb s "-buildmode=c-archive" then Some ".lib"
      else extFor_flags flags'
  end.

Definition extFor (target : string) (flags : list string) : string :=
  if Strings.Contains target "windows" then
    match extFor_flags flags with
    | Some ext => ext
    | None => ".exe"
    end
  else if String.eqb target "js_wasm" then ".wasm"
  else "".

(** [l[i]]; an index out of range panics. *)
Definition index {A} (l : list A) (i : nat) : M A :=
  match l !! i with
  | Some x => ret x
  | None => panic "index out of range"
  end.

(** Lines 259-265: the operating system and the architecture of a target. *)
Definition osArch (target : string) : M (string * string) :=
  if Strings.Contains target "_" then
    goos <- index (Strings.Split target "_") 0 ;;
    goarch <- index (Strings.Split target "_") 1 ;;
    ret (goos, goarch)
  else ret ("", "").

Definition buildOptionsForTarget (ctx : Context.t) (build : Build.t)
    (target : string) : M (result Options.t) :=
  let ext := extFor target (Build.Flags build) in
  ga <- osArch target ;;
  let buildOpts := Options.Make target ext (fst ga) (snd ga) "" "" in
  let fail (e : error) : M (result Options.t) := ret (Error e) in
  binary <-? tmpl_Apply (Template.WithBuildOptions buildOpts (Template.New ctx))
                        (Build.Binary build) or fail ;;
  let build := Build.set_Binary binary build in
  let name := Build.Binary build +:+ ext in
  path <-? filepath_Abs
             (filepath_Join [Project.Dist (Context.Config ctx);
                             Build.ID build +:+ "_" +:+ target;
                             name]) or fail ;;
  log Info [("binary", VString path)] "building" ;;;
  ret (Ok (Options.set_Path path (Options.set_Name name buildOpts))).

(** *** Process runner *)

(** The value of [cmd.Env] for an environment slice.  The only caller of
    [run] builds the slice by appending to a nil slice, so a slice without
    entries is nil, and os/exec then gives the subprocess the environment
    of the process itself ([None]). *)
Definition cmdEnv (env : list string) : option (list string) :=
  match env with
  | [] => None
  | _ :: _ => Some env
  end.

Definition run (ctx : Context.t) (dir : string) (command env : list string)
    : M (option error) :=
  match command with
  | [] => panic "index out of range"
  | _ :: _ =>
      log Debug [("cmd", VStrings command); ("env", VStrings env)] "running" ;;;
      r <- call (Exec dir command (cmdEnv env)) ;;
      match snd r with
      | Some err =>
          log Debug [("cmd", VStrings command); ("error", VError err)] "failed" ;;;
          ret (Some (Errorf "%q: %w" [fst r] err))
      | None => ret None
      end
  end.

(** *** Hook runner *)

(** Lines 219-225: the entries of [hook.Env] are expanded one by one and
    appended to [env]; the first template error ends the loop. *)
Fixpoint appendHookEnv (tp : Template.t) (raw env : list string)
    : result (list string) :=
  match raw with
  | [] => Ok env
  | rawEnv :: raw' =>
      match tmpl_Apply tp rawEnv with
      | Error e => Error e
      | Ok e => appendHookEnv tp raw' (env ++ [e])
      end
  end.

(** The body of the loop of [runHook], for one hook. *)
Definition hookBody (ctx : Context.t) (opts : Options.t)
    (buildEnv : list string) (hook : Hook.t) : M (option error) :=
  let fail (e : error) : M (option error) := ret (Some e) in
  let env := ([] ++ Context.Env ctx) ++ buildEnv in
  let tp := Template.WithBuildOptions opts (Template.New ctx) in
  env <-? appendHookEnv tp (Hook.Env hook) env or fail ;;
  dir <-? tmpl_Apply tp (Hook.Dir hook) or fail ;;
  sh <-? tmpl_Apply (Template.WithEnvS env tp) (Hook.Cmd hook) or fail ;;
  log Info [("hook", VString sh)] "running hook" ;;;
  cmd <-? shellwords_Parse sh or fail ;;
  run ctx dir cmd env.

(** [runHook]; the test [len(hooks) == 0] is the first case. *)
Fixpoint runHook (ctx : Context.t) (opts : Options.t)
    (buildEnv : list string) (hooks : list Hook.t) : M (option error) :=
  match hooks with
  | [] => ret None
  | hook :: hooks' =>
      r <- hookBody ctx opts buildEnv hook ;;
      match r with
      | Some err => ret (Some err)
      | None => runHook ctx opts buildEnv hooks'
      end
  end.

Definition doBuild (ctx : Context.t) (build : Build.t) (opts : Options.t)
    : M (option error) :=
  r <- call (BuilderBuild (Build.Lang build) ctx build opts) ;;
  ret (snd r).

(** *** Module proxy *)

Definition nl : string := String (ascii_of_nat 10) "".
Definition dquote : string := String (ascii_of_nat 34) "".

Definition modTemplate : string :=
  nl +:+ "module {{ .ProjectName }}" +:+ nl +:+ nl +:+
  "require {{ .Proxy }} {{ .Version }}" +:+ nl +:+ nl.

Definition mainTemplate : string :=
  nl +:+ "// +build main" +:+ nl +:+ "package main" +:+ nl +:+ nl +:+
  "import _ " +:+ dquote +:+ "{{ .Proxy }}" +:+ dquote +:+ nl.

Definition proxy (ctx : Context.t) (build : Build.t) : M (Build.t * option error) :=
  if negb (Build.IsProxied build) then ret (build, None)
  else
    let cfg := default (BuildProxy.Make "" "") (Build.Proxy build) in
    let fail (e : error) : M (Build.t * option error) :=
      ret (build, Some (Errorf "failed to proxy module: %w" [] e)) in
    let failed (out : string) (e : error) := fail e in
    let template := Template.New ctx in
    proxy <-? tmpl_Apply template (BuildProxy.Path cfg) or fail ;;
    version <-? tmpl_Apply template (BuildProxy.Version cfg) or fail ;;
    let id := [("id", VString (Build.ID build))] in
    log Info id ("proxying " +:+ proxy +:+ "@" +:+ version) ;;;
    let template :=
      Template.WithExtraFields [("Proxy", proxy); ("Version", version)] template in
    gomod <-? tmpl_Apply template modTemplate or fail ;;
    main <-? tmpl_Apply template mainTemplate or fail ;;
    let dir := Project.Dist (Context.Config ctx) +:+ "/build_" +:+ Build.ID build in
    log Debug id "creating needed files" ;;;
    Mkdir dir orelse failed ;;
    WriteFile (dir +:+ "/main.go") main orelse failed ;;
    WriteFile (dir +:+ "/go.mod") gomod orelse failed ;;
    OpenRead "go.sum" orelse failed ;;
    OpenWrite (dir +:+ "/go.sum") orelse failed ;;
    Copy (dir +:+ "/go.sum") "go.sum" orelse failed ;;
    log Debug id "tidying" ;;;
    Exec dir ["go"; "mod"; "tidy"] None
      orelse (fun out e =>
                ret (build, Some (Errorf "failed to proxy module: %w: %s" [out] e))) ;;
    ret (Build.set_Dir dir (Build.set_Main proxy build), None).

(** *** Executor *)

(** The task of one target: the function handed to [g.Go]. *)
Definition targetTask (ctx : Context.t) (build : Build.t) (target : string)
    : M (option error) :=
  r <- buildOptionsForTarget ctx build target ;;
  match r with
  | Error err => ret (Some err)
  | Ok opts =>
      r <- runHook ctx opts (Build.Env build) (HookConfig.Pre (Build.Hooks build)) ;;
      match r with
      | Some err => ret (Some (Errorf "pre hook failed: %w" [] err))
      | None =>
          r <- doBuild ctx build opts ;;
          match r with
          | Some err => ret (Some err)
          | None =>
              if negb (Context.SkipPostBuildHooks ctx) then
                r <- runHook ctx opts (Build.Env build)
                       (HookConfig.Post (Build.Hooks build)) ;;
                match r with
                | Some err => ret (Some (Errorf "post hook failed: %w" [] err))
                | None => ret None
                end
              else ret None
          end
      end
  end.

(** Lines 94-116: one call to [g.Go] per target. *)
Fixpoint spawnTargets (ctx : Context.t) (build : Build.t)
    (g : semerrgroup.Group) (targets : list string) : M semerrgroup.Group :=
  match targets with
  | [] => ret g
  | target :: targets' =>
      g' <- semerrgroup.Go g (targetTask ctx build target) ;;
      spawnTargets ctx build g' targets'
  end.

Definition runPipeOnBuild (ctx : Context.t) (build : Build.t) : M (option error) :=
  r <- proxy ctx build ;;
  match snd r with
  | Some err => ret (Some err)
  | None =>
      let build := fst r in
      let g := semerrgroup.New (Context.Parallelism ctx) in
      g <- spawnTargets ctx build g (Build.Targets build) ;;
      semerrgroup.Wait g
  end.

(** The loop of [Run] over the builds still to be visited. *)
Fixpoint runBuilds (ctx : Context.t) (builds : list Build.t) : M (option error) :=
  match builds with
  | [] => ret None
  | build :: builds' =>
      if Build.Skip build then
        log Info [("id", VString (Build.ID build))] "skip is set" ;;;
        runBuilds ctx builds'
      else
        log Debug [("build", VBuild build)] "building" ;;;
        r <- runPipeOnBuild ctx build ;;
        match r with
        | Some err => ret (Some err)
        | None => runBuilds ctx builds'
        end
  end.

Definition Run (ctx : Context.t) : M (option error) :=
  runBuilds ctx (Project.Builds (Context.Config ctx)).

(** *** Defaulting *)

Definition ExpandEnv (s : string) : string := Os.Expand s os_Getenv.

(** Lines 72-83: the fields [buildWithDefaults] fills in itself.  The
    entries of [Env] are overwritten in place. *)
Definition ownDefaults (ctx : Context.t) (build : Build.t) : Build.t :=
  let build :=
    if String.eqb (Build.Lang build) "" then Build.set_Lang "go" build else build in
  let build :=
    if String.eqb (Build.Binary build) ""
    then Build.set_Binary (Project.ProjectName (Context.Config ctx)) build
    else build in
  let build :=
    if String.eqb (Build.ID build) ""
    then Build.set_ID (Project.ProjectName (Context.Config ctx)) build
    else build in
  Build.set_Env (ExpandEnv <$> Build.Env build) build.

Definition buildWithDefaults (ctx : Context.t) (build : Build.t) : result Build.t :=
  let build := ownDefaults ctx build in
  builder_WithDefaults (Build.Lang build) build.

(** Lines 53-60.  The slice [Env] of a build is shared with the
    configuration, so its expansion stays visible when the builder
    rejects the build. *)
Fixpoint defaultBuilds (ctx : Context.t) (i : ids.IDs) (builds : list Build.t)
    : list Build.t * ids.IDs * option error :=
  match builds with
  | [] => ([], i, None)
  | build :: builds' =>
      match buildWithDefaults ctx build with
      | Error err =>
          (Build.set_Env (ExpandEnv <$> Build.Env build) build :: builds', i, Some err)
      | Ok build' =>
          let '(rest, i', r) := defaultBuilds ctx (ids.Inc (Build.ID build') i) builds' in
          (build' :: rest, i', r)
      end
  end.

Definition Default (ctx : Context.t) : Context.t * option error :=
  let cfg := Context.Config ctx in
  let '(builds, i, r) := defaultBuilds ctx (ids.New "builds") (Project.Builds cfg) in
  let ctx := Context.set_Config (Project.set_Builds builds cfg) ctx in
  match r with
  | Some err => (ctx, Some err)
  | None =>
      match builds with
      | [] =>
          let single := Project.SingleBuild cfg in
          let cfg' :=
            Project.set_SingleBuild
              (Build.set_Env (ExpandEnv <$> Build.Env single) single) cfg in
          match buildWithDefaults ctx single with
          | Error err => (Context.set_Config cfg' ctx, Some err)
          | Ok build =>
              (Context.set_Config (Project.set_Builds [build] cfg') ctx,
               ids.Validate i)
          end
      | _ :: _ => (ctx, ids.Validate i)
      end
  end.

End Pipe.

(** ** A concrete world for the examples

    Templates are applied literally, except that a text mentioning
    [.Missing] is rejected; a directory named [/locked...] cannot be made;
    the command [false] and any command run in a directory named [/bad...]
    exit with status 1; the builder rejects the targets [plan9...] and, when
    defaulting, adds the target [linux_amd64] to a build without targets.
    The world counts the calls made so far. *)
Module Demo.

Definition exit1 : error := Failure "exit status 1".

Definition answer (c : Call) (w : nat) : (string * option error) * nat :=
  let failure : option error :=
    match c with
    | Mkdir dir =>
        if Strings.HasPrefix dir "/locked" then Some (Failure "permission denied")
        else None
    | Exec dir argv _ =>
        if Strings.HasPrefix dir "/bad" then Some exit1
        else match argv with
             | cmd :: _ => if String.eqb cmd "false" then Some exit1 else None
             | [] => None
             end
    | BuilderBuild _ _ _ opts =>
        if Strings.HasPrefix (Options.Target opts) "plan9"
        then Some (Failure ("unsupported target " +:+ Options.Target opts))
        else None
    | _ => None
    end in
  (match failure with Some _ => "boom" | None => "" end, failure, S w).

Definition Apply (tp : Template.t) (s : string) : result string :=
  if Strings.Contains s ".Missing" then Error (Failure "template: no such field")
  else Ok s.

Definition Parse (s : string) : result (list string) :=
  if Strings.Contains s "'" then Error (Failure "invalid command line string")
  else Ok (filter (fun w => w <> "") (Strings.Split s " ")).

Fixpoint Join (parts : list string) : string :=
  match parts with
  | [] => ""
  | [x] => x
  | x :: rest => x +:+ "/" +:+ Join rest
  end.

Definition Abs (path : string) : result string :=
  if Strings.HasPrefix path "/" then Ok path else Ok ("/work/" +:+ path).

Definition WithDefaults (lang : string) (b : Build.t) : result Build.t :=
  if String.eqb lang "cobol" then Error (Failure "no such builder")
  else
    match Build.Targets b with
    | [] =>
        Ok (Build.Make (Build.ID b) (Build.Lang b) (Build.Binary b) ["linux_amd64"]
              (Build.Env b) (Build.Hooks b) (Build.Proxy b) (Build.Dir b)
              (Build.Main b) (Build.Skip b) (Build.Flags b))
    | _ :: _ => Ok b
    end.

Definition ext : External :=
  {| World := nat;
     perform := answer;
     os_Getenv := sample_getenv;
     tmpl_Apply := Apply;
     shellwords_Parse := Parse;
     filepath_Join := Join;
     filepath_Abs := Abs;
     builder_WithDefaults := WithDefaults |}.

Definition start : @State ext := @MkState ext 0 [].

Definition no_hooks : HookConfig.t := HookConfig.Make [] [].

Definition build (id : string) (targets : list string) : Build.t :=
  Build.Make id "go" "app" targets [] no_hooks None "." "." false [].

Definition project (builds : list Build.t) : Project.t :=
  Project.Make "app" "dist" builds (build "" []).

Definition context (builds : list Build.t) : Context.t :=
  Context.Make (project builds) ["HOME=/root"] 4 false.

(** The same context with another [dist] directory. *)
Definition context_in (dist : string) (builds : list Build.t) : Context.t :=
  Context.Make (Project.Make "app" dist builds (build "" []))
    ["HOME=/root"] 4 false.

Definition skipping_post_hooks (c : Context.t) : Context.t :=
  Context.Make (Context.Config c) (Context.Env c) (Context.Parallelism c) true.

Definition hook (cmd : string) (env : list string) : Hook.t :=
  Hook.Make "" cmd env.

Definition hooked (id : string) (targets : list string) (pre post : list Hook.t)
    : Build.t :=
  Build.Make id "go" "app" targets ["CGO_ENABLED=0"] (HookConfig.Make pre post)
    None "." "." false [].

Definition proxied (id dist_path version : string) (targets : list string)
    : Build.t :=
  Build.Make id "go" "app" targets [] no_hooks
    (Some (BuildProxy.Make dist_path version)) "." "." false [].

(** A build that is skipped; it could not be proxied if it were run. *)
Definition skipped : Build.t :=
  Build.Make "lib" "go" "lib" ["linux_amd64"; "plan9_386"] [] no_hooks
    (Some (BuildProxy.Make "{{ .Missing }}" "v1")) "." "." true [].

Definition linux_amd64 : Options.t :=
  Options.Make "linux_amd64" "" "linux" "amd64" "app"
    "/work/dist/app_linux_amd64/app".

End Demo.

(** * Properties *)

(** ** Examples of the library models *)

Example Split_linux_amd64 :
  Strings.Split "linux_amd64" "_" = ["linux"; "amd64"].
Proof. reflexivity. Qed.

Example Split_three_parts :
  Strings.Split "a__b_" "_" = ["a"; ""; "b"; ""].
Proof. reflexivity. Qed.

Example Split_long_separator :
  Strings.Split "a, b, c,d" ", " = ["a"; "b"; "c,d"].
Proof. reflexivity. Qed.

Example Split_no_separator :
  Strings.Split "darwin" "_" = ["darwin"].
Proof. reflexivity. Qed.

Example Contains_windows :
  Strings.Contains "windows_amd64" "windows" = true /\
  Strings.Contains "linux_amd64" "windows" = false /\
  Strings.Contains "" "" = true.
Proof. repeat split; reflexivity. Qed.

Example Expand_braces :
  Os.Expand "CGO=${HOME}/go:$HOME.$B$" sample_getenv = "CGO=/root/go:/root.x$".
Proof. reflexivity. Qed.

Example Expand_bad_syntax :
  Os.Expand "a${}b${c$ d$$e" sample_getenv = "abc$ de".
Proof. reflexivity. Qed.

Example Expand_not_idempotent :
  Os.Expand "X=$A" sample_getenv = "X=$B" /\
  Os.Expand "X=$B" sample_getenv = "X=x".
Proof. split; reflexivity. Qed.

Example extFor_table :
  extFor "windows_amd64" [] = ".exe" /\
  extFor "windows_amd64" ["-buildmode=c-shared"] = ".dll" /\
  extFor "windows_amd64" ["-buildmode=c-archive"] = ".lib" /\
  extFor "js_wasm" [] = ".wasm" /\
  extFor "linux_amd64" [] = "".
Proof. repeat split; reflexivity. Qed.

(** ** Splitting at underscores *)

Section SplitUnderscore.
Import Strings.

Lemma append_nil_l s : "" +:+ s = s.
Proof. reflexivity. Qed.

Lemma append_cons c a b : String c a +:+ b = String c (a +:+ b).
Proof. reflexivity. Qed.

Lemma append_empty_r s : s +:+ "" = s.
Proof.
  induction s as [|c s IH]; [reflexivity|].
  rewrite append_cons, IH. reflexivity.
Qed.

Lemma append_snoc cur c a :
  (cur +:+ String c "") +:+ a = cur +:+ String c a.
Proof.
  induction cur as [|d cur IH].
  - reflexivity.
  - rewrite !append_cons, IH. reflexivity.
Qed.

Lemma HasPrefix_underscore c s :
  HasPrefix (String c s) "_" = Ascii.eqb c "_".
Proof. simpl. destruct (Ascii.eqb c "_"); reflexivity. Qed.

Lemma Contains_underscore_cons c s :
  Contains (String c s) "_" = Ascii.eqb c "_" || Contains s "_".
Proof.
  change (Contains (String c s) "_")
    with (HasPrefix (String c s) "_" || Contains s "_").
  rewrite HasPrefix_underscore. reflexivity.
Qed.

Lemma Contains_underscore_app a rest :
  Contains (a +:+ String "_" rest) "_" = true.
Proof.
  induction a as [|c a IH].
  - reflexivity.
  - rewrite append_cons, Contains_underscore_cons, IH. apply orb_true_r.
Qed.

(** A piece without underscore is read up to the next underscore. *)
Lemma split_from_piece a : forall cur rest,
  Contains a "_" = false ->
  split_from "_" 0 cur (a +:+ String "_" rest)
  = (cur +:+ a) :: split_from "_" 0 "" rest.
Proof.
  induction a as [|c a IH]; intros cur rest Ha.
  - rewrite append_nil_l, append_empty_r. reflexivity.
  - rewrite Contains_underscore_cons in Ha.
    apply orb_false_iff in Ha as [Hc Ha].
    rewrite append_cons. cbn [split_from].
    rewrite HasPrefix_underscore, Hc.
    rewrite IH by assumption. rewrite append_snoc. reflexivity.
Qed.

(** A piece without underscore that ends the text is the last piece. *)
Lemma split_from_last a : forall cur,
  Contains a "_" = false ->
  split_from "_" 0 cur a = [cur +:+ a].
Proof.
  induction a as [|c a IH]; intros cur Ha.
  - rewrite append_empty_r. reflexivity.
  - rewrite Contains_underscore_cons in Ha.
    apply orb_false_iff in Ha as [Hc Ha].
    cbn [split_from]. rewrite HasPrefix_underscore, Hc.
    rewrite IH by assumption. rewrite append_snoc. reflexivity.
Qed.

Lemma HasPrefix_underscore_inv tail :
  HasPrefix tail "_" = true -> exists rest, tail = String "_" rest.
Proof.
  destruct tail as [|c tail]; [discriminate|].
  rewrite HasPrefix_underscore. intros Hc.
  apply Ascii.eqb_eq in Hc. subst c. eauto.
Qed.

(** The first two pieces of [os_arch] and of [os_arch_...]. *)
Lemma Split_os_arch os arch tail :
  Contains os "_" = false ->
  Contains arch "_" = false ->
  tail = "" \/ HasPrefix tail "_" = true ->
  exists more, Split (os +:+ "_" +:+ arch +:+ tail) "_" = os :: arch :: more.
Proof.
  intros Hos Harch Htail. unfold Split.
  change ("_" +:+ arch +:+ tail) with (String "_" (arch +:+ tail)).
  rewrite split_from_piece by assumption. rewrite append_nil_l.
  destruct Htail as [->|Htail].
  - rewrite append_empty_r, split_from_last by assumption. eauto.
  - apply HasPrefix_underscore_inv in Htail as [rest ->].
    rewrite split_from_piece by assumption. eauto.
Qed.

End SplitUnderscore.

(** ** Option resolver *)

Section OptionResolver.
Context `{External}.
Import Strings.

Lemma osArch_split target goos goarch more st :
  Contains target "_" = true ->
  Split target "_" = goos :: goarch :: more ->
  osArch target st = (Done (goos, goarch), st).
Proof.
  intros Hc Hs. unfold osArch. rewrite Hc.
  unfold bind, index. rewrite Hs. reflexivity.
Qed.

Lemma osArch_no_underscore target st :
  Contains target "_" = false ->
  osArch target st = (Done ("", ""), st).
Proof. intros Hc. unfold osArch. rewrite Hc. reflexivity. Qed.

Lemma Contains_underscore_inv target :
  Contains target "_" = true ->
  exists os rest, target = os +:+ String "_" rest /\ Contains os "_" = false.
Proof.
  induction target as [|c target IH]; [discriminate|].
  rewrite Contains_underscore_cons. destruct (Ascii.eqb_spec c "_") as [->|Hc].
  - intros _. exists "", target. split; reflexivity.
  - cbn [orb]. intros Ht. destruct (IH Ht) as (os & rest & -> & Hos).
    exists (String c os), rest. split; [reflexivity|].
    rewrite Contains_underscore_cons, Hos.
    destruct (Ascii.eqb_spec c "_"); [contradiction|reflexivity].
Qed.

Lemma split_from_nonempty sep s : forall skip cur,
  exists piece more, split_from sep skip cur s = piece :: more.
Proof.
  induction s as [|c s IH]; intros skip cur; cbn [split_from]; [eauto|].
  destruct skip; [|apply IH].
  destruct (HasPrefix (String c s) sep); [eauto|apply IH].
Qed.

(** The two reads of [strings.Split(target, "_")] are always in range. *)
Lemma osArch_returns target st :
  exists goos goarch, osArch target st = (Done (goos, goarch), st).
Proof.
  destruct (Contains target "_") eqn:Hc.
  - destruct (Contains_underscore_inv target Hc) as (os & rest & -> & Hos).
    destruct (split_from_nonempty "_" rest 0 "") as (piece & more & Hrest).
    exists os, piece. apply osArch_split with more; [assumption|].
    unfold Split. rewrite split_from_piece by assumption.
    rewrite Hrest. reflexivity.
  - exists "", "". apply osArch_no_underscore. assumption.
Qed.

(** The options returned for a target carry what [osArch] computed. *)
Lemma buildOptionsForTarget_fields ctx build target ga st opts st' :
  osArch target st = (Done ga, st) ->
  buildOptionsForTarget ctx build target st = (Done (Ok opts), st') ->
  Options.Target opts = target /\
  Options.Os opts = fst ga /\ Options.Arch opts = snd ga.
Proof.
  intros Hga. unfold buildOptionsForTarget, bind at 1. rewrite Hga.
  destruct (tmpl_Apply _ _) as [binary|e]; [|discriminate].
  destruct (filepath_Abs _) as [path|e]; [|discriminate].
  unfold bind, log, emit, ret. intros [= <- _]. auto.
Qed.

(** What the resolver does with [target] when it yields [goos] and
    [goarch]: the split itself returns them without a panic, and every
    [Options] value returned for the target holds them. *)
Definition resolves (ctx : Context.t) (build : Build.t) (st : State)
    (target goos goarch : string) : Prop :=
  osArch target st = (Done (goos, goarch), st) /\
  forall opts st',
    buildOptionsForTarget ctx build target st = (Done (Ok opts), st') ->
    Options.Target opts = target /\
    Options.Os opts = goos /\ Options.Arch opts = goarch.

(** C2 (amended): for a target [os_arch] or [os_arch_...], [Os] is the
    part before the first underscore and [Arch] is the part between the
    first underscore and the second one, or the end of the identifier when
    there is no second underscore; for a target without underscore both
    are empty. *)
Theorem buildOptionsForTarget_os_arch ctx build st :
  (forall os arch tail,
      Contains os "_" = false ->
      Contains arch "_" = false ->
      tail = "" \/ HasPrefix tail "_" = true ->
      resolves ctx build st (os +:+ "_" +:+ arch +:+ tail) os arch) /\
  (forall target,
      Contains target "_" = false ->
      resolves ctx build st target "" "").
Proof.
  split.
  - intros os arch tail Hos Harch Htail.
    destruct (Split_os_arch os arch tail Hos Harch Htail) as [more Hsplit].
    assert (Hga : osArch (os +:+ "_" +:+ arch +:+ tail) st
                  = (Done (os, arch), st)).
    { apply osArch_split with more; [|assumption].
      apply (Contains_underscore_app os (arch +:+ tail)). }
    split; [assumption|]. intros opts st' Hrun.
    apply (buildOptionsForTarget_fields _ _ _ _ _ _ _ Hga Hrun).
  - intros target Hc.
    pose proof (osArch_no_underscore target st Hc) as Hga.
    split; [assumption|]. intros opts st' Hrun.
    apply (buildOptionsForTarget_fields _ _ _ _ _ _ _ Hga Hrun).
Qed.

(** The two build modes that change the extension. *)
Definition is_shared (s : string) : Prop := s = "-buildmode=c-shared".
Definition is_archive (s : string) : Prop := s = "-buildmode=c-archive".

Lemma extFor_flags_none flags :
  (forall s, s ∈ flags -> ~ is_shared s /\ ~ is_archive s) ->
  extFor_flags flags = None.
Proof.
  induction flags as [|s flags IH]; intros Hall; [reflexivity|].
  destruct (Hall s) as [Hs Ha]; [left|].
  simpl. rewrite (proj2 (String.eqb_neq _ _) Hs), (proj2 (String.eqb_neq _ _) Ha).
  apply IH. intros s' Hin. apply Hall. right. assumption.
Qed.

Lemma extFor_flags_first pre s post :
  (forall s', s' ∈ pre -> ~ is_shared s' /\ ~ is_archive s') ->
  extFor_flags (pre ++ s :: post) = extFor_flags (s :: post).
Proof.
  induction pre as [|p pre IH]; intros Hall; [reflexivity|].
  destruct (Hall p) as [Hs Ha]; [left|].
  cbn [app extFor_flags].
  rewrite (proj2 (String.eqb_neq _ _) Hs), (proj2 (String.eqb_neq _ _) Ha).
  apply IH. intros s' Hin. apply Hall. right. assumption.
Qed.

(** Among several build-mode flags the first one in the list decides: on
    a target whose identifier contains [windows] the extension is [.exe]
    when neither build-mode flag is among the flags, [.dll] when the first
    build-mode flag among them is [-buildmode=c-shared] and [.lib] when it
    is [-buildmode=c-archive]; it is [.wasm] for the exact target [js_wasm]
    and empty for every other target. *)
Theorem extFor_policy target flags :
  (Contains target "windows" = true ->
   ((forall s, s ∈ flags -> ~ is_shared s /\ ~ is_archive s) ->
    extFor target flags = ".exe") /\
   (forall pre post,
       flags = pre ++ "-buildmode=c-shared" :: post ->
       (forall s, s ∈ pre -> ~ is_shared s /\ ~ is_archive s) ->
       extFor target flags = ".dll") /\
   (forall pre post,
       flags = pre ++ "-buildmode=c-archive" :: post ->
       (forall s, s ∈ pre -> ~ is_shared s /\ ~ is_archive s) ->
       extFor target flags = ".lib")) /\
  (target = "js_wasm" -> extFor target flags = ".wasm") /\
  (Contains target "windows" = false -> target <> "js_wasm" ->
   extFor target flags = "").
Proof.
  unfold extFor. split; [|split].
  - intros Hw. rewrite Hw. split; [|split].
    + intros Hnone. rewrite extFor_flags_none by assumption. reflexivity.
    + intros pre post -> Hpre.
      rewrite extFor_flags_first by assumption. reflexivity.
    + intros pre post -> Hpre.
      rewrite extFor_flags_first by assumption. reflexivity.
  - intros ->. reflexivity.
  - intros Hw Hjs. rewrite Hw, (proj2 (String.eqb_neq _ _) Hjs). reflexivity.
Qed.

Lemma extFor_flags_shared flags :
  "-buildmode=c-shared" ∈ flags ->
  "-buildmode=c-archive" ∉ flags ->
  extFor_flags flags = Some ".dll".
Proof.
  induction flags as [|s flags IH]; intros Hin Hnotin; [inversion Hin|].
  cbn [extFor_flags].
  destruct (String.eqb_spec s "-buildmode=c-shared") as [Hs|Hs]; [reflexivity|].
  apply not_elem_of_cons in Hnotin as [Ha Hnotin].
  rewrite (proj2 (String.eqb_neq _ _) (not_eq_sym Ha)).
  apply elem_of_cons in Hin as [Hin|Hin]; [congruence|]. auto.
Qed.

Lemma extFor_flags_archive flags :
  "-buildmode=c-archive" ∈ flags ->
  "-buildmode=c-shared" ∉ flags ->
  extFor_flags flags = Some ".lib".
Proof.
  induction flags as [|s flags IH]; intros Hin Hnotin; [inversion Hin|].
  cbn [extFor_flags].
  apply not_elem_of_cons in Hnotin as [Hs Hnotin].
  rewrite (proj2 (String.eqb_neq _ _) (not_eq_sym Hs)).
  destruct (String.eqb_spec s "-buildmode=c-archive") as [Ha|Ha]; [reflexivity|].
  apply elem_of_cons in Hin as [Hin|Hin]; [congruence|]. auto.
Qed.

(** C3: on a Windows target (one whose identifier contains [windows]) the
    extension is [.exe] when no build-mode flag is among the flags, [.dll]
    when the build mode among the flags is [-buildmode=c-shared], and
    [.lib] when it is [-buildmode=c-archive]; it is [.wasm] for the exact
    target [js_wasm] and empty for every other target. *)
Theorem extFor_by_build_mode target flags :
  (Contains target "windows" = true ->
   ("-buildmode=c-shared" ∉ flags -> "-buildmode=c-archive" ∉ flags ->
    extFor target flags = ".exe") /\
   ("-buildmode=c-shared" ∈ flags -> "-buildmode=c-archive" ∉ flags ->
    extFor target flags = ".dll") /\
   ("-buildmode=c-archive" ∈ flags -> "-buildmode=c-shared" ∉ flags ->
    extFor target flags = ".lib")) /\
  (target = "js_wasm" -> extFor target flags = ".wasm") /\
  (Contains target "windows" = false -> target <> "js_wasm" ->
   extFor target flags = "").
Proof.
  unfold extFor. split; [|split].
  - intros Hw. rewrite Hw. split; [|split].
    + intros Hshared Harchive. rewrite extFor_flags_none; [reflexivity|].
      intros s Hs. unfold is_shared, is_archive. split; intros ->; contradiction.
    + intros Hshared Harchive.
      rewrite extFor_flags_shared by assumption. reflexivity.
    + intros Harchive Hshared.
      rewrite extFor_flags_archive by assumption. reflexivity.
  - intros ->. reflexivity.
  - intros Hw Hjs. rewrite Hw, (proj2 (String.eqb_neq _ _) Hjs). reflexivity.
Qed.

End OptionResolver.

(** *** The resolver on concrete targets *)

Lemma buildOptionsForTarget_os_arch_witness :
  let ctx := Demo.context [] in
  let build := Demo.build "app" ["linux_arm_6"; "darwin"] in
  resolves (H := Demo.ext) ctx build Demo.start "linux_arm_6" "linux" "arm" /\
  resolves (H := Demo.ext) ctx build Demo.start "darwin" "" "".
Proof.
  intros ctx build.
  destruct (buildOptionsForTarget_os_arch (H := Demo.ext) ctx build Demo.start)
    as [Hsplit Hplain].
  split.
  - apply (Hsplit "linux" "arm" "_6"); [reflexivity | reflexivity | right; reflexivity].
  - apply Hplain. reflexivity.
Defined.

(** C2 as the specification words it: the identifier is cut at its first
    underscore only, so [Arch] is everything after it. *)
Definition splits_at_first_underscore `{External} : Prop :=
  forall ctx build st os arch,
    Strings.Contains os "_" = false ->
    resolves ctx build st (os +:+ "_" +:+ arch) os arch.

(** On [linux_arm_6] the resolver returns the architecture [arm], not
    [arm_6]. *)
Lemma splits_at_first_underscore_fails :
  ~ @splits_at_first_underscore Demo.ext.
Proof.
  intros Hclaim.
  destruct (Hclaim (Demo.context []) (Demo.build "app" ["linux_arm_6"])
              Demo.start "linux" "arm_6" eq_refl) as [Hsplit _].
  vm_compute in Hsplit. discriminate Hsplit.
Qed.

Lemma extFor_policy_witness :
  extFor "windows_amd64" ["-v"] = ".exe" /\
  extFor "windows_386" ["-v"; "-buildmode=c-shared"; "-buildmode=c-archive"] = ".dll" /\
  extFor "windows_386" ["-buildmode=c-archive"; "-buildmode=c-shared"] = ".lib" /\
  extFor "js_wasm" ["-buildmode=c-shared"] = ".wasm" /\
  extFor "linux_amd64" ["-buildmode=c-shared"] = "".
Proof.
  assert (Hv : forall s, s ∈ ["-v"] -> ~ is_shared s /\ ~ is_archive s).
  { intros s Hs. apply list_elem_of_singleton in Hs as ->. split; discriminate. }
  assert (Hnil : forall s, s ∈ @nil string -> ~ is_shared s /\ ~ is_archive s).
  { intros s Hs. inversion Hs. }
  split; [|split; [|split; [|split]]].
  - apply (extFor_policy "windows_amd64" ["-v"]); [reflexivity | exact Hv].
  - apply (extFor_policy "windows_386"
             ["-v"; "-buildmode=c-shared"; "-buildmode=c-archive"])
      with (pre := ["-v"]) (post := ["-buildmode=c-archive"]);
      [reflexivity | reflexivity | exact Hv].
  - apply (extFor_policy "windows_386"
             ["-buildmode=c-archive"; "-buildmode=c-shared"])
      with (pre := []) (post := ["-buildmode=c-shared"]);
      [reflexivity | reflexivity | exact Hnil].
  - apply (extFor_policy "js_wasm" ["-buildmode=c-shared"]). reflexivity.
  - apply (extFor_policy "linux_amd64" ["-buildmode=c-shared"]);
      [reflexivity | discriminate].
Defined.

Lemma extFor_by_build_mode_witness :
  extFor "windows_amd64" [] = ".exe" /\
  extFor "windows_amd64" ["-v"; "-buildmode=c-shared"] = ".dll" /\
  extFor "windows_arm64" ["-buildmode=c-archive"; "-trimpath"] = ".lib" /\
  extFor "js_wasm" [] = ".wasm" /\
  extFor "linux_amd64" [] = "".
Proof.
  split; [|split; [|split; [|split]]].
  - apply (extFor_by_build_mode "windows_amd64" []);
      [reflexivity | intros Hin; inversion Hin | intros Hin; inversion Hin].
  - apply (extFor_by_build_mode "windows_amd64" ["-v"; "-buildmode=c-shared"]);
      [reflexivity | right; left |].
    intros Hin.
    repeat (apply elem_of_cons in Hin as [Hin|Hin]; [discriminate|]).
    inversion Hin.
  - apply (extFor_by_build_mode "windows_arm64"
             ["-buildmode=c-archive"; "-trimpath"]);
      [reflexivity | left |].
    intros Hin.
    repeat (apply elem_of_cons in Hin as [Hin|Hin]; [discriminate|]).
    inversion Hin.
  - apply (extFor_by_build_mode "js_wasm" []). reflexivity.
  - apply (extFor_by_build_mode "linux_amd64" []); [reflexivity | discriminate].
Defined.

(** ** Hook runner *)

(** The value of [key] in an environment list as a subprocess sees it
    (os/exec keeps the last entry of a duplicated key). *)
Fixpoint LookupEnv (env : list string) (key : string) : option string :=
  match env with
  | [] => None
  | kv :: env' =>
      match LookupEnv env' key with
      | Some v => Some v
      | None =>
          if Strings.HasPrefix kv (key +:+ "=")
          then Some (Os.drop_bytes (String.length key + 1) kv)
          else None
      end
  end.

Lemma LookupEnv_app earlier later key :
  LookupEnv (earlier ++ later) key =
  match LookupEnv later key with
  | Some v => Some v
  | None => LookupEnv earlier key
  end.
Proof.
  induction earlier as [|kv earlier IH]; simpl.
  - destruct (LookupEnv later key); reflexivity.
  - rewrite IH. destruct (LookupEnv later key); reflexivity.
Qed.

Section Hooks.
Context `{External}.

Lemma bind_done {A B} (c : M A) (k : A -> M B) st a st' :
  c st = (Done a, st') -> bind c k st = k a st'.
Proof. intros Hc. unfold bind. rewrite Hc. reflexivity. Qed.

Lemma bind_panicked {A B} (c : M A) (k : A -> M B) st msg st' :
  c st = (Panicked msg, st') -> bind c k st = (Panicked msg, st').
Proof. intros Hc. unfold bind. rewrite Hc. reflexivity. Qed.

(** The expansions of a list of templates, in order. *)
Fixpoint applyAll (tp : Template.t) (raw : list string) : result (list string) :=
  match raw with
  | [] => Ok []
  | r :: raw' =>
      match tmpl_Apply tp r with
      | Error e => Error e
      | Ok x =>
          match applyAll tp raw' with
          | Error e => Error e
          | Ok xs => Ok (x :: xs)
          end
      end
  end.

Lemma appendHookEnv_Ok tp raw : forall env env',
  appendHookEnv tp raw env = Ok env' ->
  exists es, applyAll tp raw = Ok es /\ env' = env ++ es.
Proof.
  induction raw as [|r raw IH]; intros env env' Happ; simpl in *.
  - injection Happ as <-. exists []. rewrite app_nil_r. auto.
  - destruct (tmpl_Apply tp r) as [x|e]; [|discriminate].
    destruct (IH _ _ Happ) as (es & -> & ->).
    exists (x :: es). rewrite <- app_assoc. auto.
Qed.

(** The subprocess [runHook] starts for [hook]: the hook's own directory
    and command line, expanded and split into words, with the base context
    environment, then the build-level environment, then the expanded
    entries of the hook's own [Env] as [cmd.Env]. *)
Definition hookCall (ctx : Context.t) (opts : Options.t)
    (buildEnv : list string) (hook : Hook.t) (c : Call) : Prop :=
  exists es dir sh argv,
    applyAll (Template.WithBuildOptions opts (Template.New ctx)) (Hook.Env hook)
    = Ok es /\
    tmpl_Apply (Template.WithBuildOptions opts (Template.New ctx)) (Hook.Dir hook)
    = Ok dir /\
    tmpl_Apply
      (Template.WithEnvS (Context.Env ctx ++ buildEnv ++ es)
         (Template.WithBuildOptions opts (Template.New ctx)))
      (Hook.Cmd hook) = Ok sh /\
    shellwords_Parse sh = Ok argv /\
    c = Exec dir argv (cmdEnv (Context.Env ctx ++ buildEnv ++ es)).

(** An event of the hook runner: a log line, or the subprocess of one of
    the hooks. *)
Definition hookEvent (ctx : Context.t) (opts : Options.t)
    (buildEnv : list string) (hooks : list Hook.t) (ev : Event) : Prop :=
  match ev with
  | Logged _ _ _ => True
  | Called c => exists hook, hook ∈ hooks /\ hookCall ctx opts buildEnv hook c
  | GroupGo => False
  end.

Lemma hookEvent_incl ctx opts buildEnv hooks hooks' ev :
  (forall h, h ∈ hooks -> h ∈ hooks') ->
  hookEvent ctx opts buildEnv hooks ev ->
  hookEvent ctx opts buildEnv hooks' ev.
Proof.
  intros Hincl. destruct ev as [| |c]; simpl; auto.
  intros (h & Hin & Hcall). exists h. auto.
Qed.

Lemma hookEvents_head ctx opts buildEnv hook hooks evs :
  Forall (hookEvent ctx opts buildEnv [hook]) evs ->
  Forall (hookEvent ctx opts buildEnv (hook :: hooks)) evs.
Proof.
  intros Hevs. eapply Forall_impl; [exact Hevs|].
  intros ev. apply hookEvent_incl.
  intros h Hin. apply list_elem_of_singleton in Hin as ->. left.
Qed.

Lemma hookEvents_tail ctx opts buildEnv hook hooks evs :
  Forall (hookEvent ctx opts buildEnv hooks) evs ->
  Forall (hookEvent ctx opts buildEnv (hook :: hooks)) evs.
Proof.
  intros Hevs. eapply Forall_impl; [exact Hevs|].
  intros ev. apply hookEvent_incl.
  intros h Hin. right. assumption.
Qed.

Lemma run_events ctx dir command env st r st' :
  run ctx dir command env st = (r, st') ->
  exists evs, trace st' = trace st ++ evs /\
    Forall (fun ev => match ev with
                      | Logged _ _ _ => True
                      | Called c => c = Exec dir command (cmdEnv env)
                      | GroupGo => False
                      end) evs.
Proof.
  unfold run. destruct command as [|c0 cs].
  - intros [= _ <-]. exists []. rewrite app_nil_r. auto.
  - unfold bind, log, emit, call, ret. simpl.
    destruct (perform _ _) as [[out [err|]] w]; simpl; intros [= _ <-]; simpl.
    + eexists. rewrite <- !app_assoc. split; [reflexivity|]. repeat constructor.
    + eexists. rewrite <- !app_assoc. split; [reflexivity|]. repeat constructor.
Qed.

Lemma hookBody_events ctx opts buildEnv hook st r st' :
  hookBody ctx opts buildEnv hook st = (r, st') ->
  exists evs, trace st' = trace st ++ evs /\
    Forall (hookEvent ctx opts buildEnv [hook]) evs.
Proof.
  unfold hookBody.
  destruct (appendHookEnv _ _ _) as [env|e] eqn:Henv;
    [|intros [= _ <-]; exists []; rewrite app_nil_r; auto].
  apply appendHookEnv_Ok in Henv as (es & Hes & ->).
  rewrite app_nil_l, <- app_assoc.
  destruct (tmpl_Apply _ (Hook.Dir hook)) as [dir|e] eqn:Hdir;
    [|intros [= _ <-]; exists []; rewrite app_nil_r; auto].
  destruct (tmpl_Apply _ (Hook.Cmd hook)) as [sh|e] eqn:Hsh;
    [|intros [= _ <-]; exists []; rewrite app_nil_r; auto].
  unfold bind at 1, log, emit.
  destruct (shellwords_Parse sh) as [cmd|e] eqn:Hparse.
  - intros Hrun. apply run_events in Hrun as (evs & Htr & Hevs).
    simpl in Htr. eexists. rewrite Htr, <- app_assoc. split; [reflexivity|].
    constructor; [exact I|].
    eapply Forall_impl; [exact Hevs|].
    intros [| |c]; simpl; auto. intros ->.
    exists hook. split; [left|].
    exists es, dir, sh, cmd. auto.
  - intros [= _ <-]. simpl. eexists. split; [reflexivity|].
    repeat constructor.
Qed.

Lemma runHook_events ctx opts buildEnv hooks : forall st r st',
  runHook ctx opts buildEnv hooks st = (r, st') ->
  exists evs, trace st' = trace st ++ evs /\
    Forall (hookEvent ctx opts buildEnv hooks) evs.
Proof.
  induction hooks as [|hook hooks IH]; intros st r st'.
  - intros [= _ <-]. exists []. rewrite app_nil_r. auto.
  - cbn [runHook]. unfold bind at 1.
    destruct (hookBody ctx opts buildEnv hook st) as [[[e|]|msg] st1] eqn:Hbody;
      apply hookBody_events in Hbody as (evs1 & Htr1 & Hevs1).
    + intros [= _ <-]. exists evs1. eauto using hookEvents_head.
    + intros Hrest. apply IH in Hrest as (evs2 & Htr2 & Hevs2).
      exists (evs1 ++ evs2). rewrite Htr2, Htr1, app_assoc. split; [reflexivity|].
      apply Forall_app. eauto using hookEvents_head, hookEvents_tail.
    + intros [= _ <-]. exists evs1. eauto using hookEvents_head.
Qed.

End Hooks.

Section HookClaims.
Context `{External}.

Lemma calls_app evs evs' : calls (evs ++ evs') = calls evs ++ calls evs'.
Proof. apply omap_app. Qed.

Lemma run_call ctx dir command env st out st' :
  run ctx dir command env st = (out, st') ->
  exists evs, trace st' = trace st ++ evs /\
    ((calls evs = [] /\ out <> Done None) \/
     calls evs = [Exec dir command (cmdEnv env)]).
Proof.
  unfold run. destruct command as [|c0 cs].
  - intros [= <- <-]. exists []. rewrite app_nil_r.
    split; [reflexivity|]. left. split; [reflexivity|discriminate].
  - unfold bind, log, emit, call, ret. cbn [world trace].
    destruct (perform _ _) as [[output [err|]] w]; cbn [snd fst];
      intros [= <- <-]; cbn [trace]; eexists; rewrite <- !app_assoc;
      (split; [reflexivity|]); right; reflexivity.
Qed.

(** A hook starts no subprocess and fails, or starts its own. *)
Lemma hookBody_call ctx opts buildEnv hook st out st' :
  hookBody ctx opts buildEnv hook st = (out, st') ->
  exists evs, trace st' = trace st ++ evs /\
    ((calls evs = [] /\ out <> Done None) \/
     (exists c, calls evs = [c] /\ hookCall ctx opts buildEnv hook c)).
Proof.
  assert (Hnone : forall e : error,
             (Done (Some e), st) = (out, st') ->
             exists evs, trace st' = trace st ++ evs /\
               ((calls evs = [] /\ out <> Done None) \/
                (exists c, calls evs = [c] /\ hookCall ctx opts buildEnv hook c))).
  { intros e [= <- <-]. exists []. rewrite app_nil_r.
    split; [reflexivity|]. left. split; [reflexivity|discriminate]. }
  unfold hookBody.
  destruct (appendHookEnv _ _ _) as [env|e] eqn:Henv; [|apply Hnone].
  apply appendHookEnv_Ok in Henv as (es & Hes & ->).
  rewrite app_nil_l, <- app_assoc.
  destruct (tmpl_Apply _ (Hook.Dir hook)) as [dir|e] eqn:Hdir; [|apply Hnone].
  destruct (tmpl_Apply _ (Hook.Cmd hook)) as [sh|e] eqn:Hsh; [|apply Hnone].
  unfold bind at 1, log, emit.
  destruct (shellwords_Parse sh) as [cmd|e] eqn:Hparse.
  - intros Hrun. apply run_call in Hrun as (evs & Htr & Hcalls).
    cbn [trace] in Htr. eexists. rewrite Htr, <- app_assoc.
    split; [reflexivity|]. rewrite calls_app. cbn [calls omap list_omap app].
    destruct Hcalls as [[Hnil Hout]|Hcall]; [left; auto|].
    right. eexists. split; [exact Hcall|].
    exists es, dir, sh, cmd. auto.
  - intros [= <- <-]. cbn [trace]. eexists. split; [reflexivity|].
    left. split; [reflexivity|discriminate].
Qed.

Lemma runHook_calls ctx opts buildEnv hooks : forall st out st',
  runHook ctx opts buildEnv hooks st = (out, st') ->
  exists evs ran rest,
    trace st' = trace st ++ evs /\
    hooks = ran ++ rest /\
    Forall2 (hookCall ctx opts buildEnv) ran (calls evs) /\
    (out = Done None -> rest = []).
Proof.
  induction hooks as [|hook hooks IH]; intros st out st'.
  - intros [= <- <-]. exists [], [], []. rewrite app_nil_r.
    repeat split; auto; constructor.
  - cbn [runHook]. unfold bind at 1.
    destruct (hookBody ctx opts buildEnv hook st) as [out1 st1] eqn:Hbody.
    apply hookBody_call in Hbody as (evs1 & Htr1 & Hcalls1).
    assert (Hstop : out1 <> Done None ->
              (out1, st1) = (out, st') ->
              exists evs ran rest,
                trace st' = trace st ++ evs /\
                hook :: hooks = ran ++ rest /\
                Forall2 (hookCall ctx opts buildEnv) ran (calls evs) /\
                (out = Done None -> rest = [])).
    { intros Hout [= <- <-]. exists evs1.
      destruct Hcalls1 as [[Hnil _]|(c & Hc & Hcall)].
      - exists [], (hook :: hooks). rewrite Hnil.
        repeat split; auto; first [contradiction | constructor].
      - exists [hook], hooks. rewrite Hc.
        repeat split; auto;
          first [contradiction | repeat constructor; assumption]. }
    destruct out1 as [[e|]|msg];
      [apply Hstop; discriminate | | apply Hstop; discriminate].
    destruct Hcalls1 as [[_ Hout]|(c & Hc & Hcall)]; [contradiction|].
    intros Hrest. apply IH in Hrest as (evs2 & ran & rest & Htr2 & -> & Hran & Hnil).
    exists (evs1 ++ evs2), (hook :: ran), rest.
    rewrite Htr2, Htr1, app_assoc, calls_app, Hc.
    repeat split; auto; constructor; assumption.
Qed.

(** C7: the subprocesses the hook runner starts are those of the hooks, one
    per hook and in the order of the hooks, up to where the runner stops
    (for all hooks when it returns nil).  The subprocess of a hook runs the
    hook's own expanded directory and command line, and its [cmd.Env] is
    the base context environment, then the build-level environment, then
    the expanded entries of that hook's own [Env], in this order (a list
    without entries being the nil slice); so for every key the value found
    in this list is the hook's, else the build's, else the base one. *)
Theorem runHook_environment ctx opts buildEnv hooks st :
  exists evs ran rest,
    trace (snd (runHook ctx opts buildEnv hooks st)) = trace st ++ evs /\
    hooks = ran ++ rest /\
    Forall2 (hookCall ctx opts buildEnv) ran (calls evs) /\
    (fst (runHook ctx opts buildEnv hooks st) = Done None -> rest = []) /\
    forall es key,
      LookupEnv (Context.Env ctx ++ buildEnv ++ es) key =
      match LookupEnv es key with
      | Some v => Some v
      | None =>
          match LookupEnv buildEnv key with
          | Some v => Some v
          | None => LookupEnv (Context.Env ctx) key
          end
      end.
Proof.
  destruct (runHook ctx opts buildEnv hooks st) as [out st'] eqn:Hrun.
  apply runHook_calls in Hrun as (evs & ran & rest & Htr & Hsplit & Hran & Hnil).
  exists evs, ran, rest. repeat (split; [assumption|]).
  intros es key. rewrite !LookupEnv_app.
  destruct (LookupEnv es key); [reflexivity|].
  destruct (LookupEnv buildEnv key); reflexivity.
Qed.

(** The hooks after a run of successful hooks carry on from its state. *)
Lemma runHook_app ctx opts buildEnv before after : forall st st1,
  runHook ctx opts buildEnv before st = (Done None, st1) ->
  runHook ctx opts buildEnv (before ++ after) st
  = runHook ctx opts buildEnv after st1.
Proof.
  induction before as [|hook before IH]; intros st st1.
  - intros [= <-]. reflexivity.
  - cbn [runHook app]. unfold bind.
    destruct (hookBody ctx opts buildEnv hook st) as [[[e|]|msg] st0];
      try discriminate.
    apply IH.
Qed.


(** The task of a target up to and including the call of the builder. *)
Definition taskUntilBuilt (ctx : Context.t) (build : Build.t) (target : string)
    : M (option error) :=
  r <- buildOptionsForTarget ctx build target ;;
  match r with
  | Error err => ret (Some err)
  | Ok opts =>
      r <- runHook ctx opts (Build.Env build) (HookConfig.Pre (Build.Hooks build)) ;;
      match r with
      | Some err => ret (Some (Errorf "pre hook failed: %w" [] err))
      | None => doBuild ctx build opts
      end
  end.

(** C10: with [SkipPostBuildHooks] set, the task of a target resolves the
    options, runs the pre hooks and calls the builder as it does without
    the flag, and ends with the result and in the state of the builder
    call: no post hook runs, whatever [Hooks.Post] holds. *)
Theorem targetTask_skips_post_hooks ctx build target st :
  Context.SkipPostBuildHooks ctx = true ->
  targetTask ctx build target st = taskUntilBuilt ctx build target st.
Proof.
  intros Hflag. unfold targetTask, taskUntilBuilt, bind.
  destruct (buildOptionsForTarget ctx build target st) as [[[opts|e]|msg] st1];
    try reflexivity.
  destruct (runHook ctx opts _ _ st1) as [[[e|]|msg] st2]; try reflexivity.
  destruct (doBuild ctx build opts st2) as [[[e'|]|msg'] st3]; try reflexivity.
  rewrite Hflag. reflexivity.
Qed.

End HookClaims.

(** *** The hook runner on concrete hooks *)

Lemma runHook_environment_witness :
  let ctx := Demo.context [] in
  let notify := Demo.hook "echo built" ["TOKEN=1"] in
  let deploy := Demo.hook "echo hi" ["GOOS=linux"; "HOME=/tmp"] in
  let ran :=
    runHook (H := Demo.ext) ctx Demo.linux_amd64 ["CGO_ENABLED=0"]
      [notify; deploy] Demo.start in
  calls (trace (snd ran))
  = [Exec "" ["echo"; "built"] (Some ["HOME=/root"; "CGO_ENABLED=0"; "TOKEN=1"]);
     Exec "" ["echo"; "hi"]
       (Some ["HOME=/root"; "CGO_ENABLED=0"; "GOOS=linux"; "HOME=/tmp"])] /\
  Forall2 (hookCall (H := Demo.ext) ctx Demo.linux_amd64 ["CGO_ENABLED=0"])
    [notify; deploy] (calls (trace (snd ran))) /\
  LookupEnv ["HOME=/root"; "CGO_ENABLED=0"; "GOOS=linux"; "HOME=/tmp"] "HOME"
  = Some "/tmp".
Proof.
  intros ctx notify deploy ran.
  destruct (runHook_environment (H := Demo.ext) ctx Demo.linux_amd64
              ["CGO_ENABLED=0"] [notify; deploy] Demo.start)
    as (evs & started & rest & Htr & Hsplit & Hstarted & Hnil & Hlookup).
  split; [vm_compute; reflexivity|]. split.
  - assert (Hrest : rest = []) by (apply Hnil; vm_compute; reflexivity).
    subst rest. rewrite app_nil_r in Hsplit. subst started.
    unfold ran. rewrite Htr. exact Hstarted.
  - change (LookupEnv (Context.Env ctx ++ ["CGO_ENABLED=0"]
                         ++ ["GOOS=linux"; "HOME=/tmp"]) "HOME" = Some "/tmp").
    rewrite Hlookup. reflexivity.
Defined.


Lemma targetTask_skips_post_hooks_witness :
  let failing := Demo.hook "false" [] in
  let build := Demo.hooked "app" ["linux_amd64"] [] [failing] in
  let ctx := Demo.skipping_post_hooks (Demo.context [build]) in
  targetTask (H := Demo.ext) ctx build "linux_amd64" Demo.start
  = taskUntilBuilt (H := Demo.ext) ctx build "linux_amd64" Demo.start /\
  fst (targetTask (H := Demo.ext) ctx build "linux_amd64" Demo.start) = Done None /\
  fst (targetTask (H := Demo.ext) (Demo.context [build]) build "linux_amd64" Demo.start)
  = Done (Some (Errorf "post hook failed: %w" []
                  (Errorf "%q: %w" ["boom"] Demo.exit1))).
Proof.
  intros failing build ctx.
  split; [|split; vm_compute; reflexivity].
  apply (targetTask_skips_post_hooks (H := Demo.ext) ctx build "linux_amd64").
  reflexivity.
Defined.

(** ** Executor *)

Section Executor.
Context `{External}.

(** The state after one more event. *)
Definition after (ev : Event) (st : State) : State :=
  MkState (world st) (trace st ++ [ev]).

Definition skipLine (build : Build.t) : Event :=
  Logged Info [("id", VString (Build.ID build))] "skip is set".

Lemma runBuilds_app ctx before rest : forall st st1,
  runBuilds ctx before st = (Done None, st1) ->
  runBuilds ctx (before ++ rest) st = runBuilds ctx rest st1.
Proof.
  induction before as [|build before IH]; intros st st1.
  - intros [= <-]. reflexivity.
  - cbn [runBuilds app]. destruct (Build.Skip build).
    + unfold bind, log, emit. apply IH.
    + unfold bind, log, emit.
      destruct (runPipeOnBuild ctx build _) as [[[e|]|msg] st0];
        try discriminate.
      apply IH.
Qed.

Lemma runBuilds_stops ctx before rest : forall st out st1,
  runBuilds ctx before st = (out, st1) ->
  out <> Done None ->
  runBuilds ctx (before ++ rest) st = (out, st1).
Proof.
  induction before as [|build before IH]; intros st out st1.
  - intros [= <- _] Hout. contradiction.
  - cbn [runBuilds app]. destruct (Build.Skip build).
    + unfold bind, log, emit. apply IH.
    + unfold bind, log, emit.
      destruct (runPipeOnBuild ctx build _) as [[[e|]|msg] st0]; auto.
Qed.

(** C5: when [Run] reaches a build whose [Skip] is set it logs the line
    [skip is set] with the build's ID and goes on with the remaining
    builds from the same world: the build adds no task, no call to the
    builder and no call of the proxy to the trace, and no error.  (The
    loop only fails to reach the build when an earlier build failed.) *)
Theorem Run_skips_build ctx before build rest st :
  Project.Builds (Context.Config ctx) = before ++ build :: rest ->
  Build.Skip build = true ->
  Run ctx st =
  match runBuilds ctx before st with
  | (Done None, st1) => runBuilds ctx rest (after (skipLine build) st1)
  | stopped => stopped
  end.
Proof.
  intros Hbuilds Hskip. unfold Run. rewrite Hbuilds.
  destruct (runBuilds ctx before st) as [out st1] eqn:Hbefore.
  destruct out as [[e|]|msg].
  - apply (runBuilds_stops _ _ _ _ _ _ Hbefore). discriminate.
  - rewrite (runBuilds_app _ _ _ _ _ Hbefore).
    cbn [runBuilds]. rewrite Hskip. reflexivity.
  - apply (runBuilds_stops _ _ _ _ _ _ Hbefore). discriminate.
Qed.

End Executor.

(** ** Module proxy *)

Section Proxy.
Context `{External}.

(** The calls answer without error, one after the other. *)
Fixpoint allSucceed (calls : list Call) (w : World) : option World :=
  match calls with
  | [] => Some w
  | c :: calls' =>
      match perform c w with
      | (_, None, w') => allSucceed calls' w'
      | (_, Some _, _) => None
      end
  end.

(** The files written and the commands run to build the proxy module. *)
Definition proxyCalls (dir main gomod : string) : list Call :=
  [Mkdir dir;
   WriteFile (dir +:+ "/main.go") main;
   WriteFile (dir +:+ "/go.mod") gomod;
   OpenRead "go.sum";
   OpenWrite (dir +:+ "/go.sum");
   Copy (dir +:+ "/go.sum") "go.sum";
   Exec dir ["go"; "mod"; "tidy"] None].

(** Every step of the proxy construction succeeds: the four template
    expansions, then the calls of [proxyCalls] from the world [w], which
    they leave as [w']. *)
Definition proxySucceeds (ctx : Context.t) (build : Build.t) (cfg : BuildProxy.t)
    (w : World) (path dir : string) (w' : World) : Prop :=
  exists version gomod main,
    let template := Template.New ctx in
    let template' :=
      Template.WithExtraFields [("Proxy", path); ("Version", version)] template in
    tmpl_Apply template (BuildProxy.Path cfg) = Ok path /\
    tmpl_Apply template (BuildProxy.Version cfg) = Ok version /\
    tmpl_Apply template' modTemplate = Ok gomod /\
    tmpl_Apply template' mainTemplate = Ok main /\
    dir = Project.Dist (Context.Config ctx) +:+ "/build_" +:+ Build.ID build /\
    allSucceed (proxyCalls dir main gomod) w = Some w'.

(** The errors of the proxy name the proxy and wrap their cause. *)
Definition proxyError (err : error) : Prop :=
  exists args cause,
    err = Errorf "failed to proxy module: %w" args cause \/
    err = Errorf "failed to proxy module: %w: %s" args cause.

(** An event that neither schedules a task nor calls the builder. *)
Definition beforeTasks (ev : Event) : Prop :=
  match ev with
  | GroupGo => False
  | Called (BuilderBuild _ _ _ _) => False
  | _ => True
  end.

Ltac proxy_trace :=
  cbn [trace world];
  first [ reflexivity
        | rewrite <- !app_assoc; reflexivity
        | symmetry; apply app_nil_r ].

Ltac proxy_failed :=
  intros [= <- <-]; do 3 eexists;
  split; [reflexivity|];
  split; [proxy_trace|];
  split; [repeat constructor|];
  split; [reflexivity|];
  do 2 eexists; (left + right); reflexivity.

Ltac proxy_call :=
  unfold bind at 1, call at 1; cbn [world trace];
  match goal with
  | |- context [perform ?c ?w] =>
      let Hc := fresh "Hcall" in
      destruct (perform c w) as [[? [?|]] ?] eqn:Hc; cbn [snd fst];
      [unfold ret; proxy_failed|]
  end.

Lemma proxy_outcome ctx build st out st' :
  proxy ctx build st = (out, st') ->
  exists build' r evs,
    out = Done (build', r) /\
    trace st' = trace st ++ evs /\
    Forall beforeTasks evs /\
    match r with
    | Some err => build' = build /\ proxyError err
    | None =>
        match Build.Proxy build with
        | None => build' = build /\ st' = st
        | Some cfg =>
            exists path dir,
              proxySucceeds ctx build cfg (world st) path dir (world st') /\
              build' = Build.set_Dir dir (Build.set_Main path build)
        end
    end.
Proof.
  unfold proxy, Build.IsProxied.
  destruct (Build.Proxy build) as [cfg|] eqn:Hcfg; cbn [negb from_option id].
  2: { intros [= <- <-]. exists build, None, []. rewrite app_nil_r.
       repeat split; auto. }
  destruct (tmpl_Apply _ (BuildProxy.Path cfg)) as [path|e] eqn:Hpath;
    [|unfold ret; proxy_failed].
  destruct (tmpl_Apply _ (BuildProxy.Version cfg)) as [version|e] eqn:Hversion;
    [|unfold ret; proxy_failed].
  unfold bind at 1, log at 1, emit at 1.
  destruct (tmpl_Apply _ modTemplate) as [gomod|e] eqn:Hmod;
    [|unfold ret; proxy_failed].
  destruct (tmpl_Apply _ mainTemplate) as [main|e] eqn:Hmain;
    [|unfold ret; proxy_failed].
  unfold bind at 1, log at 1, emit at 1.
  do 6 proxy_call.
  unfold bind at 1, log at 1, emit at 1.
  proxy_call.
  unfold ret. intros [= <- <-]. do 3 eexists.
  split; [reflexivity|].
  split; [proxy_trace|].
  split; [repeat constructor|].
  exists path. eexists. split; [|reflexivity].
  exists version, gomod, main. cbn zeta.
  repeat (split; [first [assumption | reflexivity]|]).
  cbn [allSucceed proxyCalls world].
  repeat match goal with
         | Hc : perform ?c ?w = _ |- context [perform ?c ?w] => rewrite Hc
         end.
  reflexivity.
Qed.

(** C6: the proxy either fails, and then the pipeline of the build returns
    the proxy's wrapped error in the state the proxy left, before any
    task is scheduled or the builder called, and the build definition is
    the one passed in; or it succeeds, and then every step succeeded and
    [Main] and [Dir] are the proxied import path and the scratch
    directory (a build without proxy configuration is left as it is). *)
Theorem proxy_all_or_nothing ctx build st :
  exists build' r st' evs,
    proxy ctx build st = (Done (build', r), st') /\
    trace st' = trace st ++ evs /\
    Forall beforeTasks evs /\
    match r with
    | Some err =>
        build' = build /\ proxyError err /\
        runPipeOnBuild ctx build st = (Done (Some err), st')
    | None =>
        match Build.Proxy build with
        | None => build' = build /\ st' = st
        | Some cfg =>
            exists path dir,
              proxySucceeds ctx build cfg (world st) path dir (world st') /\
              build' = Build.set_Dir dir (Build.set_Main path build)
        end
    end.
Proof.
  destruct (proxy ctx build st) as [out st'] eqn:Hproxy.
  destruct (proxy_outcome _ _ _ _ _ Hproxy)
    as (build' & r & evs & -> & Htrace & Hevs & Hr).
  exists build', r, st', evs. repeat (split; [assumption || reflexivity|]).
  destruct r as [err|]; [|exact Hr].
  destruct Hr as [-> Herr]. repeat (split; [assumption || reflexivity|]).
  unfold runPipeOnBuild. rewrite (bind_done _ _ _ _ _ Hproxy). reflexivity.
Qed.

End Proxy.

(** ** Aggregation of the task errors *)

Section Aggregate.
Context `{External}.

(** Every target of the list gets its task: the task of a target starts
    once the group has been handed it, whatever the earlier tasks
    returned, and runs until it returns [r]. *)
Inductive ranAll (ctx : Context.t) (build : Build.t)
  : list string -> State -> list (option error) -> State -> Prop :=
| ranAll_nil st : ranAll ctx build [] st [] st
| ranAll_cons target targets st r st1 results st2 :
    targetTask ctx build target (after GroupGo st) = (Done r, st1) ->
    ranAll ctx build targets st1 results st2 ->
    ranAll ctx build (target :: targets) st (r :: results) st2.

(** The errors among the results of the tasks, in the order of the tasks. *)
Definition failures (results : list (option error)) : list error :=
  omap id results.

Lemma ranAll_length ctx build targets st results st2 :
  ranAll ctx build targets st results st2 ->
  length results = length targets.
Proof. induction 1; simpl; congruence. Qed.

Lemma spawnTargets_ranAll ctx build targets st results st2 :
  ranAll ctx build targets st results st2 ->
  forall g,
    spawnTargets ctx build g targets st
    = (Done (semerrgroup.Make (semerrgroup.size g)
               (semerrgroup.errs g ++ failures results)), st2).
Proof.
  induction 1 as [st|target targets st r st1 results st2 Htask _ IH]; intros g.
  - cbn. rewrite app_nil_r. destruct g; reflexivity.
  - cbn [spawnTargets]. unfold bind at 1, semerrgroup.Go.
    unfold bind at 1, emit at 1. fold (after GroupGo st).
    unfold bind at 1. rewrite Htask.
    destruct r as [err|]; unfold ret; rewrite IH; cbn.
    + rewrite <- app_assoc. reflexivity.
    + reflexivity.
Qed.

(** C1: once the proxy step is over, a task is started for every target
    of the build and runs to its end whatever the other tasks return; the
    pipeline of the build fails if and only if some task failed, and its
    error then carries the error of every failed task, in the order of the
    targets. *)
Theorem runPipeOnBuild_aggregates ctx build st build' st1 results st2 :
  proxy ctx build st = (Done (build', None), st1) ->
  ranAll ctx build' (Build.Targets build') st1 results st2 ->
  length results = length (Build.Targets build') /\
  runPipeOnBuild ctx build st =
  (Done (match failures results with
         | [] => None
         | _ :: _ => Some (Multiple (failures results))
         end), st2).
Proof.
  intros Hproxy Hran. split; [eapply ranAll_length; eassumption|].
  unfold runPipeOnBuild. rewrite (bind_done _ _ _ _ _ Hproxy). cbn [fst snd].
  unfold bind. rewrite (spawnTargets_ranAll _ _ _ _ _ _ Hran).
  unfold semerrgroup.Wait, semerrgroup.New. cbn.
  destruct (failures results); reflexivity.
Qed.

End Aggregate.

(** *** The executor on concrete builds *)

Lemma runPipeOnBuild_aggregates_witness :
  let build := Demo.build "app" ["plan9_386"; "linux_amd64"; "plan9_arm"] in
  exists st2,
    runPipeOnBuild (H := Demo.ext) (Demo.context [build]) build Demo.start
    = (Done (Some (Multiple [Failure "unsupported target plan9_386";
                             Failure "unsupported target plan9_arm"])), st2) /\
    scheduledTasks (trace st2) = 3 /\ builderCalls (trace st2) = 3.
Proof.
  intros build.
  edestruct (runPipeOnBuild_aggregates (H := Demo.ext) (Demo.context [build])
               build Demo.start) as [_ Hrun].
  - vm_compute. reflexivity.
  - eapply ranAll_cons; [vm_compute; reflexivity|].
    eapply ranAll_cons; [vm_compute; reflexivity|].
    eapply ranAll_cons; [vm_compute; reflexivity|].
    apply ranAll_nil.
  - eexists. split; [exact Hrun|]. split; vm_compute; reflexivity.
Defined.

Lemma Run_skips_build_witness :
  let first := Demo.build "app" ["linux_amd64"] in
  let last := Demo.build "tool" ["darwin_arm64"] in
  let ctx := Demo.context [first; Demo.skipped; last] in
  exists st',
    Run (H := Demo.ext) ctx Demo.start = (Done None, st') /\
    skipLine Demo.skipped ∈ trace st' /\
    scheduledTasks (trace st') = 2 /\
    builderCalls (trace st') = 2.
Proof.
  intros first last ctx.
  pose proof (Run_skips_build (H := Demo.ext) ctx [first] Demo.skipped [last]
                Demo.start eq_refl eq_refl) as Hrun.
  eexists. split; [rewrite Hrun; vm_compute; reflexivity|].
  split; [|split; vm_compute; reflexivity].
  vm_compute. repeat first [left | right].
Defined.

Lemma proxy_all_or_nothing_witness :
  let build := Demo.proxied "app" "golang.org/x/tools" "v0.1.0" ["linux_amd64"] in
  (exists err st',
      proxy (H := Demo.ext) (Demo.context_in "/bad" [build]) build Demo.start
      = (Done (build, Some err), st') /\
      proxyError err /\
      runPipeOnBuild (H := Demo.ext) (Demo.context_in "/bad" [build]) build Demo.start
      = (Done (Some err), st') /\
      scheduledTasks (trace st') = 0) /\
  (exists st',
      proxy (H := Demo.ext) (Demo.context [build]) build Demo.start
      = (Done (Build.set_Dir "dist/build_app"
                 (Build.set_Main "golang.org/x/tools" build), None), st')).
Proof.
  intros build. split.
  - destruct (proxy_all_or_nothing (H := Demo.ext) (Demo.context_in "/bad" [build])
                build Demo.start)
      as (build' & r & st' & evs & Hproxy & Htrace & Hevs & Hr).
    assert (Hfailed : exists err, r = Some err /\ build' = build).
    { vm_compute in Hproxy. injection Hproxy as <- <- _. eexists. split; reflexivity. }
    destruct Hfailed as (err & -> & ->). destruct Hr as (_ & Herr & Hrun).
    exists err, st'. repeat (split; [assumption|]).
    vm_compute in Hproxy. injection Hproxy as _ <-. reflexivity.
  - destruct (proxy_all_or_nothing (H := Demo.ext) (Demo.context [build])
                build Demo.start)
      as (build' & r & st' & evs & Hproxy & _).
    exists st'. rewrite Hproxy. vm_compute in Hproxy.
    injection Hproxy as <- <- _. reflexivity.
Defined.

(** ** Identifier registry *)

Section Registry.

(** The registry after counting the IDs of a list, in order. *)
Definition incAll (l : list string) (i : ids.IDs) : ids.IDs :=
  foldl (fun i id => ids.Inc id i) i l.

Definition occurrences (id : string) (l : list string) : nat :=
  count_occ String.eq_dec l id.

Lemma count_incAll l : forall i x,
  ids.count (incAll l i) !! x =
  match occurrences x l with
  | 0 => ids.count i !! x
  | S k => Some (default 0 (ids.count i !! x) + S k)
  end.
Proof.
  induction l as [|a l IH]; intros i x; [reflexivity|].
  unfold incAll. cbn [foldl]. fold (incAll l (ids.Inc a i)). rewrite IH.
  unfold occurrences. cbn [count_occ ids.Inc ids.count].
  destruct (String.eq_dec a x) as [->|Hne].
  - rewrite lookup_insert_eq. cbn [from_option].
    destruct (count_occ String.eq_dec l x); f_equal; unfold id; lia.
  - rewrite lookup_insert_ne by assumption. reflexivity.
Qed.

Lemma kind_incAll l : forall i, ids.kind (incAll l i) = ids.kind i.
Proof. induction l as [|a l IH]; intros i; [reflexivity|]. apply (IH (ids.Inc a i)). Qed.

(** Validation of a fresh registry fails exactly on a repeated ID. *)
Lemma Validate_incAll kind l :
  (NoDup l -> ids.Validate (incAll l (ids.New kind)) = None) /\
  (~ NoDup l -> ids.Validate (incAll l (ids.New kind)) = Some (DuplicateIDs kind)).
Proof.
  assert (Hiff : map_Forall (fun _ n => n <= 1) (ids.count (incAll l (ids.New kind)))
                 <-> NoDup l).
  { rewrite NoDup_ListNoDup, (NoDup_count_occ String.eq_dec).
    unfold map_Forall. split.
    - intros Hall x.
      pose proof (count_incAll l (ids.New kind) x) as Hc.
      unfold occurrences in Hc.
      destruct (count_occ String.eq_dec l x) as [|k]; [lia|].
      apply (Hall x). rewrite Hc. reflexivity.
    - intros Hocc x n. rewrite count_incAll. unfold occurrences.
      specialize (Hocc x).
      destruct (count_occ String.eq_dec l x) as [|k].
      + cbn. rewrite lookup_empty. discriminate.
      + cbn. rewrite lookup_empty. intros [= <-]. cbn. lia. }
  unfold ids.Validate. rewrite kind_incAll. cbn [ids.kind ids.New].
  split; intros Hl; case_decide; tauto.
Qed.

End Registry.

(** ** Defaulting *)

Section Defaulting.
Context `{External}.

(** The build definitions the defaulting pass works on: the explicit
    list, or the single-build shorthand when the list is empty. *)
Definition configured (ctx : Context.t) : list Build.t :=
  match Project.Builds (Context.Config ctx) with
  | [] => [Project.SingleBuild (Context.Config ctx)]
  | _ :: _ => Project.Builds (Context.Config ctx)
  end.

(** Every configured definition is accepted by the defaulting of its
    builder, with the definitions [builds'] as the outcome. *)
Definition defaulted (ctx : Context.t) (builds' : list Build.t) : Prop :=
  Forall2 (fun b b' => buildWithDefaults ctx b = Ok b') (configured ctx) builds'.

Lemma buildWithDefaults_Config ctx cfg build :
  Project.ProjectName cfg = Project.ProjectName (Context.Config ctx) ->
  buildWithDefaults (Context.set_Config cfg ctx) build = buildWithDefaults ctx build.
Proof.
  intros Hname. unfold buildWithDefaults, ownDefaults.
  cbn [Context.set_Config Context.Config]. rewrite Hname. reflexivity.
Qed.

Lemma defaultBuilds_Ok ctx builds builds' :
  Forall2 (fun b b' => buildWithDefaults ctx b = Ok b') builds builds' ->
  forall i,
    defaultBuilds ctx i builds = (builds', incAll (Build.ID <$> builds') i, None).
Proof.
  induction 1 as [|b b' builds builds' Hb _ IH]; intros i; [reflexivity|].
  cbn [defaultBuilds]. rewrite Hb, IH. reflexivity.
Qed.

(** C4: when every definition passes the defaulting of its builder, the
    defaulting pass stores the defaulted definitions and returns the
    validation error of the registry if two of them have the same ID, and
    no error if their IDs are all distinct. *)
Theorem Default_validates_ids ctx builds' :
  defaulted ctx builds' ->
  Project.Builds (Context.Config (fst (Default ctx))) = builds' /\
  (NoDup (Build.ID <$> builds') -> snd (Default ctx) = None) /\
  (~ NoDup (Build.ID <$> builds') ->
   snd (Default ctx) = Some (DuplicateIDs "builds")).
Proof.
  unfold defaulted, configured, Default.
  destruct (Project.Builds (Context.Config ctx)) as [|b builds] eqn:Hbuilds.
  - intros Hall. inversion Hall as [|single b' l l' Hsingle Hnil]; subst.
    inversion Hnil; subst. cbn [defaultBuilds].
    rewrite buildWithDefaults_Config by reflexivity. rewrite Hsingle.
    cbn [fst snd Context.set_Config Context.Config Project.set_Builds Project.Builds].
    split; [reflexivity|]. split.
    + intros _. reflexivity.
    + intros Hdup. exfalso. apply Hdup. cbn. apply NoDup_singleton.
  - intros Hall. rewrite (defaultBuilds_Ok _ _ _ Hall).
    inversion Hall as [|b0 b' l l' Hb Hrest]; subst.
    cbn [fst snd Context.set_Config Context.Config Project.set_Builds Project.Builds].
    split; [reflexivity|].
    apply (Validate_incAll "builds" (Build.ID <$> b' :: l')).
Qed.

(** The fields that [ownDefaults] sets or keeps. *)
Lemma ownDefaults_fields ctx b :
  let name := Project.ProjectName (Context.Config ctx) in
  Build.Lang (ownDefaults ctx b) <> "" /\
  (Build.Binary (ownDefaults ctx b) = "" -> name = "") /\
  (Build.ID (ownDefaults ctx b) = "" -> name = "") /\
  Build.Env (ownDefaults ctx b) = ExpandEnv <$> Build.Env b.
Proof.
  unfold ownDefaults. destruct b as [i l bin ts env hs px d m sk fl].
  cbn -[String.eqb].
  destruct (String.eqb_spec l ""); cbn -[String.eqb];
    destruct (String.eqb_spec bin ""); cbn -[String.eqb];
    destruct (String.eqb_spec i ""); cbn;
    repeat split; congruence.
Qed.

(** A definition whose defaults are in place and whose [Env] is stable
    under expansion is left as it is. *)
Lemma ownDefaults_fixed ctx b :
  let name := Project.ProjectName (Context.Config ctx) in
  Build.Lang b <> "" ->
  (Build.Binary b = "" -> name = "") ->
  (Build.ID b = "" -> name = "") ->
  ExpandEnv <$> Build.Env b = Build.Env b ->
  ownDefaults ctx b = b.
Proof.
  intros name Hlang Hbin Hid Henv. subst name. unfold ownDefaults.
  destruct b as [i l bin ts env hs px d m sk fl]. cbn -[String.eqb] in *.
  destruct (String.eqb_spec l ""); [contradiction|]; cbn -[String.eqb].
  destruct (String.eqb_spec bin ""); cbn -[String.eqb];
    destruct (String.eqb_spec i ""); cbn;
    rewrite Henv;
    unfold Build.set_Env, Build.set_ID, Build.set_Binary; cbn;
    f_equal; intuition congruence.
Qed.

(** The defaulting of a builder is well behaved when it is idempotent and
    leaves alone the fields the pipe defaults itself. *)
Definition builderKeepsDefaults : Prop :=
  forall lang b b',
    builder_WithDefaults lang b = Ok b' ->
    Build.Lang b' = Build.Lang b /\
    Build.Binary b' = Build.Binary b /\
    Build.ID b' = Build.ID b /\
    Build.Env b' = Build.Env b /\
    builder_WithDefaults lang b' = Ok b'.

(** C9 (amended): defaulting a defaulted definition again returns it
    unchanged, provided that expanding the already expanded entries of
    [Env] once more changes nothing and that the defaulting of the
    builder is idempotent and keeps [Lang], [Binary], [ID] and [Env]. *)
Theorem buildWithDefaults_idempotent ctx build build' :
  builderKeepsDefaults ->
  (forall v, v ∈ Build.Env build -> ExpandEnv (ExpandEnv v) = ExpandEnv v) ->
  buildWithDefaults ctx build = Ok build' ->
  buildWithDefaults ctx build' = Ok build'.
Proof.
  intros Hbuilder Hstable. unfold buildWithDefaults. intros Hfirst.
  destruct (Hbuilder _ _ _ Hfirst) as (Hlang & Hbin & Hid & Henv & Hagain).
  destruct (ownDefaults_fields ctx build) as (Hl & Hb & Hi & He).
  rewrite ownDefaults_fixed.
  - rewrite Hlang. exact Hagain.
  - rewrite Hlang. exact Hl.
  - rewrite Hbin. exact Hb.
  - rewrite Hid. exact Hi.
  - rewrite Henv, He, <- list_fmap_compose.
    apply Forall_fmap_ext, Forall_forall. exact Hstable.
Qed.

End Defaulting.

(** *** Defaulting on concrete configurations *)

Lemma Default_validates_ids_witness :
  let unnamed := Demo.build "" ["linux_amd64"] in
  let app := Demo.build "app" ["darwin_arm64"] in
  let tool := Demo.build "tool" ["linux_amd64"] in
  snd (Default (H := Demo.ext) (Demo.context [unnamed; app]))
  = Some (DuplicateIDs "builds") /\
  snd (Default (H := Demo.ext) (Demo.context [app; tool])) = None /\
  snd (Default (H := Demo.ext) (Demo.context [])) = None.
Proof.
  intros unnamed app tool. split; [|split].
  - edestruct (Default_validates_ids (H := Demo.ext) (Demo.context [unnamed; app]))
      as (_ & _ & Hdup).
    + unfold defaulted.
      repeat (eapply List.Forall2_cons; [vm_compute; reflexivity|]).
      apply List.Forall2_nil.
    + apply Hdup. cbn. rewrite NoDup_cons. intros [Hnotin _]. apply Hnotin. left.
  - edestruct (Default_validates_ids (H := Demo.ext) (Demo.context [app; tool]))
      as (_ & Hdistinct & _).
    + unfold defaulted.
      repeat (eapply List.Forall2_cons; [vm_compute; reflexivity|]).
      apply List.Forall2_nil.
    + apply Hdistinct. cbn. apply NoDup_cons. split; [|apply NoDup_singleton].
      rewrite list_elem_of_singleton. discriminate.
  - edestruct (Default_validates_ids (H := Demo.ext) (Demo.context []))
      as (_ & Hdistinct & _).
    + unfold defaulted.
      repeat (eapply List.Forall2_cons; [vm_compute; reflexivity|]).
      apply List.Forall2_nil.
    + apply Hdistinct. cbn. apply NoDup_singleton.
Defined.

Lemma Demo_builderKeepsDefaults : @builderKeepsDefaults Demo.ext.
Proof.
  intros lang b b'. cbn. unfold Demo.WithDefaults.
  destruct (String.eqb lang "cobol"); [discriminate|].
  destruct (Build.Targets b) as [|t ts] eqn:Htargets; intros [= <-]; cbn.
  - repeat split; reflexivity.
  - rewrite Htargets. repeat split; reflexivity.
Qed.

Lemma buildWithDefaults_idempotent_witness :
  let ctx := Demo.context [] in
  let build :=
    Build.Make "" "" "" [] ["GOPATH=$HOME/go"; "CGO_ENABLED=0"] Demo.no_hooks None
      "." "." false [] in
  exists build',
    buildWithDefaults (H := Demo.ext) ctx build = Ok build' /\
    Build.Env build' = ["GOPATH=/root/go"; "CGO_ENABLED=0"] /\
    Build.ID build' = "app" /\
    buildWithDefaults (H := Demo.ext) ctx build' = Ok build'.
Proof.
  intros ctx build. eexists.
  assert (Hfirst : buildWithDefaults (H := Demo.ext) ctx build = Ok _)
    by (vm_compute; reflexivity).
  split; [exact Hfirst|]. split; [reflexivity|]. split; [reflexivity|].
  apply (buildWithDefaults_idempotent (H := Demo.ext) ctx build).
  - exact Demo_builderKeepsDefaults.
  - intros v Hv. cbn in Hv.
    apply elem_of_cons in Hv as [->|Hv]; [vm_compute; reflexivity|].
    apply list_elem_of_singleton in Hv as ->. vm_compute. reflexivity.
  - exact Hfirst.
Defined.

(** C9 as the specification words it: defaulting a defaulted definition
    again yields the same definition, for every definition. *)
Definition defaulting_idempotent `{External} : Prop :=
  forall ctx build build',
    buildWithDefaults ctx build = Ok build' ->
    buildWithDefaults ctx build' = Ok build'.

(** In an environment where [A] holds the text [$B], the entry [X=$A]
    becomes [X=$B] in the first pass and [X=x] in the second. *)
Lemma defaulting_idempotent_fails : ~ @defaulting_idempotent Demo.ext.
Proof.
  intros Hclaim.
  pose (build := Build.Make "app" "go" "app" ["linux_amd64"] ["X=$A"]
                   Demo.no_hooks None "." "." false []).
  pose (build' := Build.set_Env ["X=$B"] build).
  assert (Hfirst : buildWithDefaults (H := Demo.ext) (Demo.context []) build
                   = Ok build') by (vm_compute; reflexivity).
  specialize (Hclaim _ _ _ Hfirst). vm_compute in Hclaim. discriminate Hclaim.
Qed.

(** * Further properties of the pipe *)

(** The number of subprocesses started in a trace. *)
Definition subprocesses (evs : list Event) : nat :=
  length (List.filter
            (fun ev => match ev with
                       | Called (Exec _ _ _) => true
                       | _ => false
                       end) evs).

Lemma scheduledTasks_app evs evs' :
  scheduledTasks (evs ++ evs') = scheduledTasks evs + scheduledTasks evs'.
Proof. unfold scheduledTasks. rewrite List.filter_app, length_app. reflexivity. Qed.

Lemma builderCalls_app evs evs' :
  builderCalls (evs ++ evs') = builderCalls evs + builderCalls evs'.
Proof. unfold builderCalls. rewrite List.filter_app, length_app. reflexivity. Qed.

Lemma subprocesses_app evs evs' :
  subprocesses (evs ++ evs') = subprocesses evs + subprocesses evs'.
Proof. unfold subprocesses. rewrite List.filter_app, length_app. reflexivity. Qed.

(** ** Extension policy *)

Definition isBuildMode (s : string) : bool :=
  String.eqb s "-buildmode=c-shared" || String.eqb s "-buildmode=c-archive".

Lemma extFor_flags_filter flags :
  extFor_flags (List.filter isBuildMode flags) = extFor_flags flags.
Proof.
  induction flags as [|s flags IH]; [reflexivity|].
  cbn [List.filter extFor_flags]. unfold isBuildMode.
  destruct (String.eqb s "-buildmode=c-shared") eqn:Hs; cbn [orb].
  - cbn [extFor_flags]. rewrite Hs. reflexivity.
  - destruct (String.eqb s "-buildmode=c-archive") eqn:Ha.
    + cbn [extFor_flags]. rewrite Hs, Ha. reflexivity.
    + exact IH.
Qed.

Lemma extFor_flags_range flags ext :
  extFor_flags flags = Some ext -> ext = ".dll" \/ ext = ".lib".
Proof.
  induction flags as [|s flags IH]; [discriminate|]. cbn [extFor_flags].
  destruct (String.eqb s "-buildmode=c-shared"); [intros [= <-]; auto|].
  destruct (String.eqb s "-buildmode=c-archive"); [intros [= <-]; auto|].
  exact IH.
Qed.

(** Flags other than the two build modes never matter: dropping them all
    leaves the extension as it is. *)
Theorem extFor_ignores_other_flags target flags :
  extFor target (List.filter isBuildMode flags) = extFor target flags.
Proof. unfold extFor. rewrite extFor_flags_filter. reflexivity. Qed.

(** For a target whose identifier does not contain [windows] the flags are
    not read at all. *)
Theorem extFor_without_windows target flags flags' :
  Strings.Contains target "windows" = false ->
  extFor target flags = extFor target flags'.
Proof. intros Hw. unfold extFor. rewrite Hw. reflexivity. Qed.

Lemma extFor_without_windows_witness :
  extFor "js_wasm" ["-buildmode=c-shared"] = extFor "js_wasm" [] /\
  extFor "darwin_arm64" ["-buildmode=c-archive"] = extFor "darwin_arm64" ["-v"].
Proof.
  split.
  - apply (extFor_without_windows "js_wasm"). reflexivity.
  - apply (extFor_without_windows "darwin_arm64"). reflexivity.
Defined.

(** The extension tells the kind of target: it is [.wasm] exactly for the
    target [js_wasm], empty exactly for the other targets without [windows]
    in their identifier, and one of [.exe], [.dll], [.lib] exactly for the
    targets with [windows] in it. *)
Theorem extFor_inverse target flags :
  (extFor target flags = ".wasm" <-> target = "js_wasm") /\
  (extFor target flags = "" <->
   Strings.Contains target "windows" = false /\ target <> "js_wasm") /\
  (extFor target flags ∈ [".exe"; ".dll"; ".lib"] <->
   Strings.Contains target "windows" = true).
Proof.
  unfold extFor.
  destruct (Strings.Contains target "windows") eqn:Hw.
  - assert (Hjs : target <> "js_wasm") by (intros ->; discriminate Hw).
    assert (Hext : match extFor_flags flags with Some ext => ext | None => ".exe" end
                   ∈ [".exe"; ".dll"; ".lib"]).
    { destruct (extFor_flags flags) as [ext|] eqn:Hflags; [|left].
      destruct (extFor_flags_range _ _ Hflags) as [-> | ->];
        [right; left | right; right; left]. }
    split; [|split].
    + split; [|contradiction]. intros Heq. rewrite Heq in Hext.
      repeat (apply elem_of_cons in Hext as [Hext|Hext]; [discriminate|]).
      inversion Hext.
    + split; [|intros [? _]; discriminate]. intros Heq. rewrite Heq in Hext.
      repeat (apply elem_of_cons in Hext as [Hext|Hext]; [discriminate|]).
      inversion Hext.
    + split; auto.
  - destruct (String.eqb_spec target "js_wasm") as [->|Hjs].
    + split; [|split].
      * split; reflexivity.
      * split; [discriminate|]. intros [_ Hne]. contradiction.
      * split; [|discriminate]. intros Hin.
        repeat (apply elem_of_cons in Hin as [Hin|Hin]; [discriminate|]).
        inversion Hin.
    + split; [|split].
      * split; [discriminate|contradiction].
      * split; auto.
      * split; [|discriminate]. intros Hin.
        repeat (apply elem_of_cons in Hin as [Hin|Hin]; [discriminate|]).
        inversion Hin.
Qed.

(** ** Option resolver, all outcomes *)

Section ResolverOutcome.
Context `{External}.

Lemma buildOptionsForTarget_log ctx build target st :
  exists r st',
    buildOptionsForTarget ctx build target st = (Done r, st') /\
    match r with
    | Error _ => st' = st
    | Ok opts =>
        st' = after (Logged Info [("binary", VString (Options.Path opts))] "building") st
    end.
Proof.
  destruct (osArch_returns target st) as (goos & goarch & Hga).
  unfold buildOptionsForTarget. rewrite (bind_done _ _ _ _ _ Hga).
  destruct (tmpl_Apply _ (Build.Binary build)) as [binary|e];
    [|do 2 eexists; split; reflexivity].
  destruct (filepath_Abs _) as [path|e]; do 2 eexists; split; reflexivity.
Qed.

(** The resolver always returns, never touches the world, and leaves the
    state as it was when it fails.  When it succeeds it has logged one line
    with the output path, the extension is that of [extFor], the name is
    the binary template, expanded against the options with empty name and
    path, followed by the extension, and the path is the absolute form of
    [<dist>/<id>_<target>/<name>]. *)
Theorem buildOptionsForTarget_outcome ctx build target st :
  exists r st',
    buildOptionsForTarget ctx build target st = (Done r, st') /\
    world st' = world st /\
    match r with
    | Error _ => st' = st
    | Ok opts =>
        Options.Ext opts = extFor target (Build.Flags build) /\
        (exists binary,
            tmpl_Apply
              (Template.WithBuildOptions
                 (Options.Make target (Options.Ext opts) (Options.Os opts)
                    (Options.Arch opts) "" "")
                 (Template.New ctx))
              (Build.Binary build) = Ok binary /\
            Options.Name opts = binary +:+ Options.Ext opts) /\
        filepath_Abs
          (filepath_Join [Project.Dist (Context.Config ctx);
                          Build.ID build +:+ "_" +:+ target;
                          Options.Name opts]) = Ok (Options.Path opts) /\
        trace st' =
        trace st ++ [Logged Info [("binary", VString (Options.Path opts))] "building"]
    end.
Proof.
  destruct (osArch_returns target st) as (goos & goarch & Hga).
  unfold buildOptionsForTarget. rewrite (bind_done _ _ _ _ _ Hga). cbn [fst snd].
  destruct (tmpl_Apply _ (Build.Binary build)) as [binary|e] eqn:Hbinary.
  - cbn [Build.Binary Build.set_Binary Build.ID].
    destruct (filepath_Abs _) as [path|e] eqn:Hpath.
    + do 2 eexists. split; [reflexivity|]. cbn.
      repeat split; try reflexivity; try assumption.
      exists binary. split; [assumption|reflexivity].
    + do 2 eexists. split; [reflexivity|]. split; reflexivity.
  - do 2 eexists. split; [reflexivity|]. split; reflexivity.
Qed.

End ResolverOutcome.

(** ** Hook runner, subprocesses and panics *)

Section HookRuns.
Context `{External}.

Lemma run_subprocesses ctx dir command env st out st' :
  run ctx dir command env st = (out, st') ->
  exists evs, trace st' = trace st ++ evs /\
    subprocesses evs <= 1 /\
    (out = Done None -> subprocesses evs = 1).
Proof.
  unfold run. destruct command as [|c0 cs].
  - intros [= <- <-]. exists []. rewrite app_nil_r.
    repeat split; [cbn; lia | discriminate].
  - unfold bind, log, emit, call, ret. cbn [world trace].
    destruct (perform _ _) as [[output [err|]] w]; cbn [snd fst];
      intros [= <- <-]; cbn [trace]; eexists; rewrite <- !app_assoc;
      (split; [reflexivity|]); cbn; auto.
Qed.

Lemma hookBody_subprocesses ctx opts buildEnv hook st out st' :
  hookBody ctx opts buildEnv hook st = (out, st') ->
  exists evs, trace st' = trace st ++ evs /\
    subprocesses evs <= 1 /\
    (out = Done None -> subprocesses evs = 1).
Proof.
  assert (Hnone : forall e : error,
             (Done (Some e), st) = (out, st') ->
             exists evs, trace st' = trace st ++ evs /\
               subprocesses evs <= 1 /\
               (out = Done None -> subprocesses evs = 1)).
  { intros e [= <- <-]. exists []. rewrite app_nil_r.
    repeat split; [cbn; lia | discriminate]. }
  unfold hookBody.
  destruct (appendHookEnv _ _ _) as [env|e]; [|apply Hnone].
  destruct (tmpl_Apply _ (Hook.Dir hook)) as [dir|e]; [|apply Hnone].
  destruct (tmpl_Apply _ (Hook.Cmd hook)) as [sh|e]; [|apply Hnone].
  unfold bind at 1, log, emit.
  destruct (shellwords_Parse sh) as [cmd|e].
  - intros Hrun. apply run_subprocesses in Hrun as (evs & Htr & Hle & Heq).
    cbn [trace] in Htr. eexists. rewrite Htr, <- app_assoc.
    split; [reflexivity|]. rewrite subprocesses_app. cbn. auto.
  - intros [= <- <-]. cbn [trace]. eexists. split; [reflexivity|].
    split; [cbn; lia | discriminate].
Qed.

Lemma runHook_subprocesses ctx opts buildEnv hooks : forall st out st',
  runHook ctx opts buildEnv hooks st = (out, st') ->
  exists evs, trace st' = trace st ++ evs /\
    subprocesses evs <= length hooks /\
    (out = Done None -> subprocesses evs = length hooks).
Proof.
  induction hooks as [|hook hooks IH]; intros st out st'.
  - intros [= <- <-]. exists []. cbn. rewrite app_nil_r. auto.
  - cbn [runHook]. unfold bind at 1.
    destruct (hookBody ctx opts buildEnv hook st) as [out1 st1] eqn:Hbody.
    apply hookBody_subprocesses in Hbody as (evs1 & Htr1 & Hle1 & Heq1).
    destruct out1 as [[e|]|msg].
    + intros [= <- <-]. exists evs1. cbn.
      split; [assumption|]. split; [lia|discriminate].
    + intros Hrest. apply IH in Hrest as (evs2 & Htr2 & Hle2 & Heq2).
      exists (evs1 ++ evs2). rewrite Htr2, Htr1, app_assoc, subprocesses_app.
      split; [reflexivity|]. specialize (Heq1 eq_refl). cbn [length].
      split; [lia|]. intros Hok. rewrite (Heq2 Hok). lia.
    + intros [= <- <-]. exists evs1. cbn.
      split; [assumption|]. split; [lia|discriminate].
Qed.


(** A hook whose expanded command line holds no word makes the runner
    panic on [command[0]]: after the hooks before it have run and the line
    [running hook] has been logged, and before any subprocess is started
    for it or for a later hook. *)
Theorem runHook_empty_command_panics ctx opts buildEnv before hook rest
    st st1 env dir sh :
  let tp := Template.WithBuildOptions opts (Template.New ctx) in
  runHook ctx opts buildEnv before st = (Done None, st1) ->
  appendHookEnv tp (Hook.Env hook) (Context.Env ctx ++ buildEnv) = Ok env ->
  tmpl_Apply tp (Hook.Dir hook) = Ok dir ->
  tmpl_Apply (Template.WithEnvS env tp) (Hook.Cmd hook) = Ok sh ->
  shellwords_Parse sh = Ok [] ->
  runHook ctx opts buildEnv (before ++ hook :: rest) st
  = (Panicked "index out of range",
     after (Logged Info [("hook", VString sh)] "running hook") st1).
Proof.
  intros tp Hbefore Henv Hdir Hsh Hparse.
  rewrite (runHook_app _ _ _ _ _ _ _ Hbefore). cbn [runHook].
  apply bind_panicked. unfold hookBody. cbn [app]. fold tp.
  rewrite Henv, Hdir, Hsh. unfold bind, log, emit. rewrite Hparse. reflexivity.
Qed.

(** No hook of the list expands to a command line without words. *)
Definition commandsNonEmpty (ctx : Context.t) (opts : Options.t)
    (hooks : list Hook.t) : Prop :=
  forall hook env sh,
    hook ∈ hooks ->
    tmpl_Apply
      (Template.WithEnvS env (Template.WithBuildOptions opts (Template.New ctx)))
      (Hook.Cmd hook) = Ok sh ->
    shellwords_Parse sh <> Ok [].

Lemma hookBody_returns ctx opts buildEnv hook st :
  commandsNonEmpty ctx opts [hook] ->
  exists r st', hookBody ctx opts buildEnv hook st = (Done r, st').
Proof.
  intros Hwords. unfold hookBody.
  destruct (appendHookEnv _ _ _) as [env|e]; [|unfold ret; eauto].
  destruct (tmpl_Apply _ (Hook.Dir hook)) as [dir|e]; [|unfold ret; eauto].
  destruct (tmpl_Apply _ (Hook.Cmd hook)) as [sh|e] eqn:Hsh; [|unfold ret; eauto].
  unfold bind at 1, log, emit.
  destruct (shellwords_Parse sh) as [cmd|e] eqn:Hparse; [|unfold ret; eauto].
  destruct cmd as [|c0 cs].
  - exfalso. apply (Hwords hook env sh); [left|exact Hsh|exact Hparse].
  - unfold run, bind, log, emit, call, ret. cbn [world trace].
    destruct (perform _ _) as [[output [err|]] w]; cbn [snd]; eauto.
Qed.

Lemma runHook_returns ctx opts buildEnv hooks : forall st,
  commandsNonEmpty ctx opts hooks ->
  exists r st', runHook ctx opts buildEnv hooks st = (Done r, st').
Proof.
  induction hooks as [|hook hooks IH]; intros st Hwords.
  - cbn. unfold ret. eauto.
  - cbn [runHook]. unfold bind.
    destruct (hookBody_returns ctx opts buildEnv hook st) as (r & st1 & ->).
    { intros h env sh Hin. apply list_elem_of_singleton in Hin as ->.
      apply Hwords. left. }
    destruct r as [e|]; [unfold ret; eauto|].
    apply IH. intros h env sh Hin. apply Hwords. right. exact Hin.
Qed.

(** The index reads of the pipe's own code stay in range as long as no
    pre or post hook of the build expands to a command line without words:
    the task then returns in this model, where the collaborators
    (templates, word splitting, calls, builder) are functions that return;
    a panic inside a collaborator is outside the model. *)
Theorem targetTask_returns ctx build target st :
  (forall opts,
      commandsNonEmpty ctx opts
        (HookConfig.Pre (Build.Hooks build) ++ HookConfig.Post (Build.Hooks build))) ->
  exists r st', targetTask ctx build target st = (Done r, st').
Proof.
  intros Hwords. unfold targetTask.
  destruct (buildOptionsForTarget_log ctx build target st)
    as (r & st1 & Hopts & _).
  rewrite (bind_done _ _ _ _ _ Hopts).
  destruct r as [opts|e]; [|unfold ret; eauto].
  destruct (runHook_returns ctx opts (Build.Env build)
              (HookConfig.Pre (Build.Hooks build)) st1) as (r & st2 & Hpre).
  { intros h env sh Hin. apply Hwords. apply elem_of_app. left. exact Hin. }
  rewrite (bind_done _ _ _ _ _ Hpre).
  destruct r as [e|]; [unfold ret; eauto|].
  unfold bind at 1, doBuild, bind at 1, call, ret. cbn [world trace].
  destruct (perform _ _) as [[output [err|]] w]; cbn [snd]; [eauto|].
  destruct (Context.SkipPostBuildHooks ctx); cbn [negb]; [eauto|].
  match goal with
  | |- context [bind (runHook ctx opts ?e ?hs) _ ?s] =>
      destruct (runHook_returns ctx opts e hs s) as (r & st4 & Hpost)
  end.
  { intros h env sh Hin. apply Hwords. apply elem_of_app. right. exact Hin. }
  rewrite (bind_done _ _ _ _ _ Hpost).
  destruct r as [e|]; eauto.
Qed.

End HookRuns.

(** ** The task of a target, event by event *)

Section TaskTrace.
Context `{External}.

Lemma hookEvents_counts ctx opts buildEnv hooks evs :
  Forall (hookEvent ctx opts buildEnv hooks) evs ->
  builderCalls evs = 0 /\ scheduledTasks evs = 0.
Proof.
  induction 1 as [|ev evs Hev _ [IHb IHs]]; [split; reflexivity|].
  change (ev :: evs) with ([ev] ++ evs).
  rewrite builderCalls_app, scheduledTasks_app, IHb, IHs.
  destruct ev as [lvl fields msg| |c]; cbn in Hev |- *; [auto|contradiction|].
  destruct Hev as (hook & _ & es & dir & sh & argv & _ & _ & _ & _ & ->).
  cbn. auto.
Qed.

Lemma doBuild_call ctx build opts st :
  exists r w,
    doBuild ctx build opts st =
    (Done r, MkState w (trace st ++ [Called (BuilderBuild (Build.Lang build) ctx build opts)])).
Proof.
  unfold doBuild, bind, call, ret.
  destruct (perform _ (world st)) as [[output r] w]. eauto.
Qed.



(** Whatever its outcome, a task calls the builder at most once, hands no
    task to a group, and starts at most one subprocess per pre and post
    hook of the build. *)
Theorem targetTask_builder_at_most_once ctx build target st :
  exists evs,
    trace (snd (targetTask ctx build target st)) = trace st ++ evs /\
    builderCalls evs <= 1 /\
    scheduledTasks evs = 0 /\
    subprocesses evs <=
    length (HookConfig.Pre (Build.Hooks build))
    + length (HookConfig.Post (Build.Hooks build)).
Proof.
  unfold targetTask.
  destruct (buildOptionsForTarget_log ctx build target st) as (r & st1 & Hopts & Hst1).
  rewrite (bind_done _ _ _ _ _ Hopts).
  destruct r as [opts|e].
  2: { subst st1. exists []. cbn. rewrite app_nil_r. repeat split; lia. }
  unfold bind at 1.
  destruct (runHook ctx opts _ _ st1) as [out2 st2] eqn:Hpre.
  pose proof (runHook_events _ _ _ _ _ _ _ Hpre) as (pre & Htr2 & Hpre_evs).
  pose proof (runHook_subprocesses _ _ _ _ _ _ _ Hpre) as (pre' & Htr2' & Hpre_n & _).
  rewrite Htr2 in Htr2'. apply app_inv_head in Htr2'. subst pre'.
  destruct (hookEvents_counts _ _ _ _ _ Hpre_evs) as [Hpre_b Hpre_s].
  assert (Hstop : exists evs,
             trace st2 = trace st ++ evs /\ builderCalls evs <= 1 /\
             scheduledTasks evs = 0 /\
             subprocesses evs <=
             length (HookConfig.Pre (Build.Hooks build))
             + length (HookConfig.Post (Build.Hooks build))).
  { eexists. rewrite Htr2, Hst1. unfold after. cbn [trace].
    rewrite <- app_assoc. split; [reflexivity|].
    rewrite builderCalls_app, scheduledTasks_app, subprocesses_app, Hpre_b, Hpre_s.
    cbn. repeat split; lia. }
  destruct out2 as [[e|]|msg]; [exact Hstop | | exact Hstop].
  destruct (doBuild_call ctx build opts st2) as (r & w & Hbuild).
  rewrite (bind_done _ _ _ _ _ Hbuild).
  assert (Hbuilt : exists evs,
             trace st2 ++ [Called (BuilderBuild (Build.Lang build) ctx build opts)]
             = trace st ++ evs /\ builderCalls evs <= 1 /\
             scheduledTasks evs = 0 /\
             subprocesses evs <=
             length (HookConfig.Pre (Build.Hooks build))
             + length (HookConfig.Post (Build.Hooks build))).
  { eexists. rewrite Htr2, Hst1. unfold after. cbn [trace].
    rewrite <- !app_assoc. split; [reflexivity|].
    rewrite builderCalls_app, scheduledTasks_app, subprocesses_app.
    rewrite builderCalls_app, scheduledTasks_app, subprocesses_app, Hpre_b, Hpre_s.
    cbn. repeat split; lia. }
  destruct r as [e|]; [exact Hbuilt|].
  destruct (Context.SkipPostBuildHooks ctx); cbn [negb]; [exact Hbuilt|].
  unfold bind at 1.
  match goal with
  | |- context [runHook ctx opts ?e ?hs ?s] =>
      destruct (runHook ctx opts e hs s) as [out4 st4] eqn:Hpost
  end.
  pose proof (runHook_events _ _ _ _ _ _ _ Hpost) as (post & Htr4 & Hpost_evs).
  pose proof (runHook_subprocesses _ _ _ _ _ _ _ Hpost) as (post' & Htr4' & Hpost_n & _).
  rewrite Htr4 in Htr4'. apply app_inv_head in Htr4'. subst post'.
  destruct (hookEvents_counts _ _ _ _ _ Hpost_evs) as [Hpost_b Hpost_s].
  assert (Hdone : exists evs,
             trace st4 = trace st ++ evs /\ builderCalls evs <= 1 /\
             scheduledTasks evs = 0 /\
             subprocesses evs <=
             length (HookConfig.Pre (Build.Hooks build))
             + length (HookConfig.Post (Build.Hooks build))).
  { eexists. rewrite Htr4. cbn [trace]. rewrite Htr2, Hst1. unfold after. cbn [trace].
    rewrite <- !app_assoc. split; [reflexivity|].
    rewrite builderCalls_app, scheduledTasks_app, subprocesses_app.
    rewrite builderCalls_app, scheduledTasks_app, subprocesses_app.
    rewrite builderCalls_app, scheduledTasks_app, subprocesses_app.
    rewrite Hpre_b, Hpre_s, Hpost_b, Hpost_s. cbn. repeat split; lia. }
  destruct out4 as [[e|]|msg]; exact Hdone.
Qed.

End TaskTrace.

(** ** Module proxy, call by call *)

Section ProxyCalls.
Context `{External}.

(** The four texts of the proxy: the import path, the version, the module
    file and the entry point, each expanded from its template. *)
Definition proxyTexts (ctx : Context.t) (cfg : BuildProxy.t)
    (path version gomod main : string) : Prop :=
  tmpl_Apply (Template.New ctx) (BuildProxy.Path cfg) = Ok path /\
  tmpl_Apply (Template.New ctx) (BuildProxy.Version cfg) = Ok version /\
  tmpl_Apply
    (Template.WithExtraFields [("Proxy", path); ("Version", version)]
       (Template.New ctx)) modTemplate = Ok gomod /\
  tmpl_Apply
    (Template.WithExtraFields [("Proxy", path); ("Version", version)]
       (Template.New ctx)) mainTemplate = Ok main.

Lemma proxyTexts_unique ctx cfg path version gomod main path' version' gomod' main' :
  proxyTexts ctx cfg path version gomod main ->
  proxyTexts ctx cfg path' version' gomod' main' ->
  path' = path /\ version' = version /\ gomod' = gomod /\ main' = main.
Proof.
  intros (Hp & Hv & Hg & Hm) (Hp' & Hv' & Hg' & Hm').
  rewrite Hp in Hp'. injection Hp' as <-.
  rewrite Hv in Hv'. injection Hv' as <-.
  rewrite Hg in Hg'. injection Hg' as <-.
  rewrite Hm in Hm'. injection Hm' as <-. auto.
Qed.

(** The calls of a list made one after the other from the world [w], up to
    and including the first one that is answered with an error: the calls
    made, the output and error of the failing call if there is one, and
    the world afterwards. *)
Fixpoint untilFailure (cs : list Call) (w : World)
    : list Call * option (string * error) * World :=
  match cs with
  | [] => ([], None, w)
  | c :: cs' =>
      match perform c w with
      | (output, Some err, w') => ([c], Some (output, err), w')
      | (_, None, w') =>
          let r := untilFailure cs' w' in
          (c :: fst (fst r), snd (fst r), snd r)
      end
  end.

(** What the proxy does once its four texts are there: it makes the calls
    of [proxyCalls] until one fails.  If none fails it returns the build
    with [Main] and [Dir] rewritten and no error; otherwise it returns the
    build as it was and the error of the failing call, wrapped, together
    with the output when the failing call is the last one, the tidy
    command. *)
Definition proxyRan (ctx : Context.t) (build : Build.t) (path main gomod : string)
    (st : State) (build' : Build.t) (r : option error) (st' : State)
    (evs : list Event) : Prop :=
  let dir := Project.Dist (Context.Config ctx) +:+ "/build_" +:+ Build.ID build in
  let ran := untilFailure (proxyCalls dir main gomod) (world st) in
  calls evs = fst (fst ran) /\
  world st' = snd ran /\
  match snd (fst ran) with
  | None =>
      r = None /\ build' = Build.set_Dir dir (Build.set_Main path build)
  | Some (output, err) =>
      build' = build /\
      r = Some (if Nat.eqb (length (fst (fst ran)))
                             (length (proxyCalls dir main gomod))
                then Errorf "failed to proxy module: %w: %s" [output] err
                else Errorf "failed to proxy module: %w" [] err)
  end.

(** The outcome of the proxy in full.  Without proxy configuration nothing
    happens.  When one of the four templates fails no call is made, the
    world and the build stay as they were, and the error is wrapped.
    Otherwise the proxy behaves as [proxyRan] says. *)
Definition proxyReport (ctx : Context.t) (build : Build.t) (st : State)
    (build' : Build.t) (r : option error) (st' : State) (evs : list Event) : Prop :=
  match Build.Proxy build with
  | None => build' = build /\ r = None /\ st' = st
  | Some cfg =>
      (forall path version gomod main,
          proxyTexts ctx cfg path version gomod main ->
          proxyRan ctx build path main gomod st build' r st' evs) /\
      ((forall path version gomod main,
           ~ proxyTexts ctx cfg path version gomod main) ->
       calls evs = [] /\ world st' = world st /\ build' = build /\
       exists err, r = Some (Errorf "failed to proxy module: %w" [] err))
  end.

Ltac events_since :=
  cbn [trace world];
  first [ reflexivity
        | rewrite <- !app_assoc; reflexivity
        | symmetry; apply app_nil_r ].

(** A template failed: no texts, no call. *)
Ltac proxy_idle :=
  unfold ret; intros [= <- <-]; do 3 eexists;
  split; [reflexivity|];
  split; [events_since|];
  split;
  [ intros ? ? ? ? (Hp' & Hv' & Hg' & Hm');
    repeat match goal with
           | Hok : tmpl_Apply ?t ?x = Ok _, Hok' : tmpl_Apply ?t ?x = Ok _ |- _ =>
               rewrite Hok in Hok'; injection Hok' as <-
           end;
    congruence
  | intros _; repeat split; eauto ].

(** The texts are there and the calls are over, by failure or not. *)
Ltac proxy_stopped Htexts :=
  unfold ret; intros [= <- <-]; do 3 eexists;
  split; [reflexivity|];
  split; [events_since|];
  split;
  [ intros ? ? ? ? Htexts';
    destruct (proxyTexts_unique _ _ _ _ _ _ _ _ _ _ Htexts Htexts')
      as (-> & -> & -> & ->);
    unfold proxyRan, proxyCalls; cbn [untilFailure];
    repeat match goal with
           | Hc : perform ?c ?w = _ |- context [perform ?c ?w] =>
               rewrite Hc; cbn [untilFailure fst snd]
           end;
    cbn; repeat split; reflexivity
  | intros Hno; exfalso; exact (Hno _ _ _ _ Htexts) ].

Ltac proxy_next Htexts :=
  unfold bind at 1, call at 1; cbn [world trace];
  match goal with
  | |- context [perform ?c ?w] =>
      let Hc := fresh "Hcall" in
      destruct (perform c w) as [[? [?|]] ?] eqn:Hc; cbn [snd fst];
      [proxy_stopped Htexts|]
  end.

Lemma proxy_report ctx build st out st' :
  proxy ctx build st = (out, st') ->
  exists build' r evs,
    out = Done (build', r) /\
    trace st' = trace st ++ evs /\
    proxyReport ctx build st build' r st' evs.
Proof.
  unfold proxy, Build.IsProxied, proxyReport.
  destruct (Build.Proxy build) as [cfg|] eqn:Hcfg; cbn [negb from_option id].
  2: { intros [= <- <-]. exists build, None, []. rewrite app_nil_r. auto. }
  destruct (tmpl_Apply _ (BuildProxy.Path cfg)) as [path|e] eqn:Hpath;
    [|proxy_idle].
  destruct (tmpl_Apply _ (BuildProxy.Version cfg)) as [version|e] eqn:Hversion;
    [|proxy_idle].
  unfold bind at 1, log at 1, emit at 1.
  destruct (tmpl_Apply _ modTemplate) as [gomod|e] eqn:Hmod; [|proxy_idle].
  destruct (tmpl_Apply _ mainTemplate) as [main|e] eqn:Hmain; [|proxy_idle].
  assert (Htexts : proxyTexts ctx cfg path version gomod main)
    by (repeat split; assumption).
  unfold bind at 1, log at 1, emit at 1.
  do 6 proxy_next Htexts.
  unfold bind at 1, log at 1, emit at 1.
  proxy_next Htexts.
  proxy_stopped Htexts.
Qed.

(** The proxy always returns.  For a build without proxy configuration it
    does nothing.  When one of the four template expansions fails it makes
    no call and leaves the world and the build alone.  Otherwise it makes
    the calls of [proxyCalls] in their order (directory, entry point,
    module file, the two lock files, their copy, the tidy command) up to and
    including the first call that is answered with an error, and no call
    after it: it returns that error wrapped and the build unchanged, or,
    when every call succeeded, no error and the build with [Main] and [Dir]
    rewritten. *)
Theorem proxy_calls_in_order ctx build st :
  exists build' r evs,
    fst (proxy ctx build st) = Done (build', r) /\
    trace (snd (proxy ctx build st)) = trace st ++ evs /\
    proxyReport ctx build st build' r (snd (proxy ctx build st)) evs.
Proof.
  destruct (proxy ctx build st) as [out st'] eqn:Hproxy.
  exact (proxy_report _ _ _ _ _ Hproxy).
Qed.

End ProxyCalls.

(** ** The loop over the builds *)

Section RunLoop.
Context `{External}.

Lemma runBuilds_all_skipped ctx builds : forall st,
  Forall (fun b => Build.Skip b = true) builds ->
  runBuilds ctx builds st
  = (Done None, MkState (world st) (trace st ++ (skipLine <$> builds))).
Proof.
  induction builds as [|build builds IH]; intros st Hskip.
  - cbn. rewrite app_nil_r. destruct st; reflexivity.
  - inversion Hskip as [|b bs Hb Hbs]; subst.
    cbn [runBuilds]. rewrite Hb. unfold bind, log, emit.
    rewrite IH by assumption. cbn [world trace fmap list_fmap].
    rewrite <- app_assoc. reflexivity.
Qed.

(** When every build has [Skip] set, [Run] returns without error, leaves
    the world as it was, and adds to the trace one line [skip is set] per
    build, in the order of the builds, and nothing else. *)
Theorem Run_all_skipped ctx st :
  Forall (fun b => Build.Skip b = true) (Project.Builds (Context.Config ctx)) ->
  Run ctx st =
  (Done None,
   MkState (world st) (trace st ++ (skipLine <$> Project.Builds (Context.Config ctx)))).
Proof. apply runBuilds_all_skipped. Qed.

(** [Run] stops at the first build whose pipeline fails: it returns the
    error of that pipeline in the state the pipeline left, and the builds
    after it are neither logged nor run. *)
Theorem Run_stops_at_first_failure ctx before build rest st st1 st2 err :
  Project.Builds (Context.Config ctx) = before ++ build :: rest ->
  runBuilds ctx before st = (Done None, st1) ->
  Build.Skip build = false ->
  runPipeOnBuild ctx build
    (after (Logged Debug [("build", VBuild build)] "building") st1)
  = (Done (Some err), st2) ->
  Run ctx st = (Done (Some err), st2).
Proof.
  intros Hbuilds Hbefore Hskip Hpipe. unfold Run. rewrite Hbuilds.
  rewrite (runBuilds_app _ _ _ _ _ Hbefore). cbn [runBuilds]. rewrite Hskip.
  unfold bind at 1, log, emit. fold (after (Logged Debug [("build", VBuild build)] "building") st1).
  rewrite (bind_done _ _ _ _ _ Hpipe). reflexivity.
Qed.

End RunLoop.

Lemma Run_all_skipped_witness :
  let ctx := Demo.context [Demo.skipped; Demo.skipped] in
  Run (H := Demo.ext) ctx Demo.start
  = (Done None,
     @MkState Demo.ext 0 [skipLine Demo.skipped; skipLine Demo.skipped]).
Proof.
  intros ctx.
  rewrite (Run_all_skipped (H := Demo.ext) ctx Demo.start).
  - reflexivity.
  - repeat constructor.
Defined.

Lemma Run_stops_at_first_failure_witness :
  let first := Demo.build "app" ["linux_amd64"] in
  let failing := Demo.build "old" ["plan9_386"] in
  let last := Demo.build "tool" ["darwin_arm64"] in
  let ctx := Demo.context [first; failing; last] in
  exists st2,
    Run (H := Demo.ext) ctx Demo.start
    = (Done (Some (Multiple [Failure "unsupported target plan9_386"])), st2) /\
    builderCalls (trace st2) = 2.
Proof.
  intros first failing last ctx.
  edestruct (Run_stops_at_first_failure (H := Demo.ext) ctx [first] failing [last]
               Demo.start) as [];
    [reflexivity | vm_compute; reflexivity | reflexivity | vm_compute; reflexivity |].
  eexists. split; [reflexivity|]. vm_compute. reflexivity.
Defined.

(** ** Defaulting, further *)

Section DefaultingMore.
Context `{External}.

Lemma defaultBuilds_length ctx builds : forall i,
  length (fst (fst (defaultBuilds ctx i builds))) = length builds.
Proof.
  induction builds as [|build builds IH]; intros i; [reflexivity|].
  cbn [defaultBuilds]. destruct (buildWithDefaults ctx build) as [build'|err].
  - specialize (IH (ids.Inc (Build.ID build') i)).
    destruct (defaultBuilds ctx _ builds) as [[rest i'] r]. cbn in *. congruence.
  - reflexivity.
Qed.

(** Whether it succeeds or fails, the defaulting pass over a non-empty
    build list keeps the number of build definitions and changes nothing
    of the context but that list. *)
Theorem Default_keeps_shape ctx :
  Project.Builds (Context.Config ctx) <> [] ->
  let ctx' := fst (Default ctx) in
  length (Project.Builds (Context.Config ctx'))
  = length (Project.Builds (Context.Config ctx)) /\
  Project.ProjectName (Context.Config ctx') = Project.ProjectName (Context.Config ctx) /\
  Project.Dist (Context.Config ctx') = Project.Dist (Context.Config ctx) /\
  Project.SingleBuild (Context.Config ctx') = Project.SingleBuild (Context.Config ctx) /\
  Context.Env ctx' = Context.Env ctx /\
  Context.Parallelism ctx' = Context.Parallelism ctx /\
  Context.SkipPostBuildHooks ctx' = Context.SkipPostBuildHooks ctx.
Proof.
  intros Hbuilds. unfold Default.
  pose proof (defaultBuilds_length ctx (Project.Builds (Context.Config ctx))
                (ids.New "builds")) as Hlen.
  destruct (defaultBuilds ctx _ _) as [[builds i] r]. cbn [fst] in Hlen.
  destruct r as [err|]; [cbn; auto 10|].
  destruct builds as [|b builds]; [|cbn; auto 10].
  destruct (Project.Builds (Context.Config ctx)); [contradiction|discriminate].
Qed.

Lemma defaultBuilds_error ctx before before' build rest err :
  Forall2 (fun b b' => buildWithDefaults ctx b = Ok b') before before' ->
  buildWithDefaults ctx build = Error err ->
  forall i,
    defaultBuilds ctx i (before ++ build :: rest)
    = (before' ++ Build.set_Env (ExpandEnv <$> Build.Env build) build :: rest,
       incAll (Build.ID <$> before') i, Some err).
Proof.
  intros Hbefore Hbuild.
  induction Hbefore as [|b b' before before' Hb _ IH]; intros i.
  - cbn [app defaultBuilds]. rewrite Hbuild. reflexivity.
  - cbn [app defaultBuilds]. rewrite Hb, IH. reflexivity.
Qed.

(** When the builder rejects a build definition, the defaulting pass
    returns the builder's error at once, without validating the IDs: the
    definitions before the rejected one are stored defaulted, the ones after
    it are left as configured, and the rejected one is left as configured
    but for its [Env], whose entries were expanded in place. *)
Theorem Default_builder_error ctx before before' build rest err :
  Project.Builds (Context.Config ctx) = before ++ build :: rest ->
  Forall2 (fun b b' => buildWithDefaults ctx b = Ok b') before before' ->
  buildWithDefaults ctx build = Error err ->
  Default ctx =
  (Context.set_Config
     (Project.set_Builds
        (before' ++ Build.set_Env (ExpandEnv <$> Build.Env build) build :: rest)
        (Context.Config ctx)) ctx,
   Some err).
Proof.
  intros Hbuilds Hbefore Hbuild. unfold Default.
  rewrite Hbuilds, (defaultBuilds_error _ _ _ _ _ _ Hbefore Hbuild). reflexivity.
Qed.

(** The defaulting of a builder leaves alone the fields the pipe defaults
    itself. *)
Definition builderKeepsFields : Prop :=
  forall lang b b',
    builder_WithDefaults lang b = Ok b' ->
    Build.Lang b' = Build.Lang b /\
    Build.Binary b' = Build.Binary b /\
    Build.ID b' = Build.ID b /\
    Build.Env b' = Build.Env b.

Lemma ownDefaults_explicit ctx b :
  (Build.Lang b <> "" -> Build.Lang (ownDefaults ctx b) = Build.Lang b) /\
  (Build.Binary b <> "" -> Build.Binary (ownDefaults ctx b) = Build.Binary b) /\
  (Build.ID b <> "" -> Build.ID (ownDefaults ctx b) = Build.ID b).
Proof.
  unfold ownDefaults. destruct b as [i l bin ts env hs px d m sk fl].
  cbn -[String.eqb].
  destruct (String.eqb_spec l ""); cbn -[String.eqb];
    destruct (String.eqb_spec bin ""); cbn -[String.eqb];
    destruct (String.eqb_spec i ""); cbn;
    repeat split; intros; congruence.
Qed.

(** With a builder that keeps these fields, a defaulted definition has a
    language; it has a binary name and an ID whenever the project has a
    name; and a language, binary name or ID that was configured is never
    replaced. *)
Theorem buildWithDefaults_fills_defaults ctx build build' :
  builderKeepsFields ->
  buildWithDefaults ctx build = Ok build' ->
  Build.Lang build' <> "" /\
  (Project.ProjectName (Context.Config ctx) <> "" ->
   Build.Binary build' <> "" /\ Build.ID build' <> "") /\
  (Build.Lang build <> "" -> Build.Lang build' = Build.Lang build) /\
  (Build.Binary build <> "" -> Build.Binary build' = Build.Binary build) /\
  (Build.ID build <> "" -> Build.ID build' = Build.ID build).
Proof.
  intros Hbuilder. unfold buildWithDefaults. intros Hrun.
  destruct (Hbuilder _ _ _ Hrun) as (-> & -> & -> & _).
  destruct (ownDefaults_fields ctx build) as (Hl & Hb & Hi & _).
  destruct (ownDefaults_explicit ctx build) as (Hl' & Hb' & Hi').
  repeat split; auto.
Qed.

Lemma Contains_dollar_cons c s :
  Strings.Contains (String c s) "$" = Ascii.eqb c "$" || Strings.Contains s "$".
Proof.
  change (Strings.Contains (String c s) "$")
    with (Strings.HasPrefix (String c s) "$" || Strings.Contains s "$").
  cbn [Strings.HasPrefix]. destruct (Ascii.eqb c "$"); reflexivity.
Qed.

Lemma expand_go_plain mapping fuel : forall s,
  Strings.Contains s "$" = false ->
  Os.expand_go fuel mapping s = s.
Proof.
  induction fuel as [|fuel IH]; intros s Hs; [reflexivity|].
  destruct s as [|c s]; [reflexivity|].
  rewrite Contains_dollar_cons in Hs. apply orb_false_iff in Hs as [Hc Hs].
  cbn [Os.expand_go]. rewrite Hc. cbn [andb]. rewrite IH by assumption. reflexivity.
Qed.

(** With a builder that keeps [Env], defaulting returns the entries of
    [Env] as configured when none of them contains a dollar sign. *)
Theorem buildWithDefaults_plain_env ctx build build' :
  builderKeepsFields ->
  (forall v, v ∈ Build.Env build -> Strings.Contains v "$" = false) ->
  buildWithDefaults ctx build = Ok build' ->
  Build.Env build' = Build.Env build.
Proof.
  intros Hbuilder Hplain. unfold buildWithDefaults. intros Hrun.
  destruct (Hbuilder _ _ _ Hrun) as (_ & _ & _ & ->).
  destruct (ownDefaults_fields ctx build) as (_ & _ & _ & ->).
  rewrite <- (list_fmap_id (Build.Env build)) at 2.
  apply Forall_fmap_ext, Forall_forall. intros v Hv.
  unfold ExpandEnv, Os.Expand. apply expand_go_plain, Hplain, Hv.
Qed.

End DefaultingMore.

(** ** The further properties on concrete runs *)

Lemma runHook_empty_command_panics_witness :
  let ctx := Demo.context [] in
  let quiet := Demo.hook "echo hi" [] in
  let empty := Demo.hook "" ["GOOS=linux"] in
  let never := Demo.hook "touch never" [] in
  exists st',
    runHook (H := Demo.ext) ctx Demo.linux_amd64 ["CGO_ENABLED=0"]
      [quiet; empty; never] Demo.start
    = (Panicked "index out of range", st') /\
    subprocesses (trace st') = 1.
Proof.
  intros ctx quiet empty never.
  eexists. split.
  - eapply (runHook_empty_command_panics (H := Demo.ext) ctx Demo.linux_amd64
              ["CGO_ENABLED=0"] [quiet] empty [never] Demo.start);
      vm_compute; reflexivity.
  - vm_compute. reflexivity.
Defined.

Lemma Demo_commandsNonEmpty ctx opts :
  @commandsNonEmpty Demo.ext ctx opts
    [Demo.hook "echo hi" []; Demo.hook "go generate" []].
Proof.
  intros hook env sh Hin Hsh.
  apply elem_of_cons in Hin as [->|Hin].
  - vm_compute in Hsh. injection Hsh as <-. vm_compute. discriminate.
  - apply list_elem_of_singleton in Hin as ->.
    vm_compute in Hsh. injection Hsh as <-. vm_compute. discriminate.
Qed.

Lemma targetTask_returns_witness :
  let build :=
    Demo.hooked "app" ["linux_amd64"] [Demo.hook "echo hi" []]
      [Demo.hook "go generate" []] in
  exists r st',
    targetTask (H := Demo.ext) (Demo.context [build]) build "linux_amd64" Demo.start
    = (Done r, st').
Proof.
  intros build.
  apply (targetTask_returns (H := Demo.ext) (Demo.context [build]) build).
  intros opts. apply Demo_commandsNonEmpty.
Defined.


Lemma Default_keeps_shape_witness :
  let app := Demo.build "app" ["linux_amd64"] in
  let legacy := Build.set_Lang "cobol" (Demo.build "legacy" ["linux_amd64"]) in
  let ctx := Demo.context [app; legacy; app] in
  length (Project.Builds (Context.Config (fst (Default (H := Demo.ext) ctx)))) = 3 /\
  snd (Default (H := Demo.ext) ctx) = Some (Failure "no such builder").
Proof.
  intros app legacy ctx. split; [|vm_compute; reflexivity].
  apply (Default_keeps_shape (H := Demo.ext) ctx). discriminate.
Defined.

Lemma Default_builder_error_witness :
  let unnamed := Build.set_Env ["GOPATH=$HOME/go"] (Demo.build "" ["linux_amd64"]) in
  let legacy :=
    Build.set_Env ["GOPATH=$HOME/go"]
      (Build.set_Lang "cobol" (Demo.build "" ["linux_amd64"])) in
  let last := Demo.build "" [] in
  let ctx := Demo.context [unnamed; legacy; last] in
  exists first',
    Default (H := Demo.ext) ctx =
    (Context.set_Config
       (Project.set_Builds
          [first'; Build.set_Env ["GOPATH=/root/go"] legacy; last]
          (Context.Config ctx)) ctx,
     Some (Failure "no such builder")) /\
    Build.ID first' = "app".
Proof.
  intros unnamed legacy last ctx.
  assert (Hfirst : buildWithDefaults (H := Demo.ext) ctx unnamed = Ok _)
    by (vm_compute; reflexivity).
  match type of Hfirst with _ = Ok ?b => exists b end.
  split; [|reflexivity].
  rewrite (Default_builder_error (H := Demo.ext) ctx [unnamed] [_] legacy [last]
             (Failure "no such builder") eq_refl
             (List.Forall2_cons _ _ Hfirst (List.Forall2_nil _)) eq_refl).
  reflexivity.
Defined.

Lemma Demo_builderKeepsFields : @builderKeepsFields Demo.ext.
Proof.
  intros lang b b'. cbn. unfold Demo.WithDefaults.
  destruct (String.eqb lang "cobol"); [discriminate|].
  destruct (Build.Targets b); intros [= <-]; cbn; repeat split; reflexivity.
Qed.

Lemma buildWithDefaults_fills_defaults_witness :
  let ctx := Demo.context [] in
  let build :=
    Build.Make "" "" "server" [] [] Demo.no_hooks None "." "." false [] in
  exists build',
    buildWithDefaults (H := Demo.ext) ctx build = Ok build' /\
    Build.Lang build' <> "" /\ Build.ID build' <> "" /\
    Build.Binary build' = "server".
Proof.
  intros ctx build. eexists.
  assert (Hrun : buildWithDefaults (H := Demo.ext) ctx build = Ok _)
    by (vm_compute; reflexivity).
  destruct (buildWithDefaults_fills_defaults (H := Demo.ext) ctx build _
              Demo_builderKeepsFields Hrun) as (Hlang & Hnamed & _ & Hbinary & _).
  split; [exact Hrun|]. split; [exact Hlang|]. split.
  - apply Hnamed. discriminate.
  - apply Hbinary. discriminate.
Defined.

Lemma buildWithDefaults_plain_env_witness :
  let ctx := Demo.context [] in
  let build :=
    Build.set_Env ["CGO_ENABLED=0"; "GOFLAGS=-mod=vendor"]
      (Demo.build "app" ["linux_amd64"]) in
  exists build',
    buildWithDefaults (H := Demo.ext) ctx build = Ok build' /\
    Build.Env build' = ["CGO_ENABLED=0"; "GOFLAGS=-mod=vendor"].
Proof.
  intros ctx build. eexists.
  assert (Hrun : buildWithDefaults (H := Demo.ext) ctx build = Ok _)
    by (vm_compute; reflexivity).
  split; [exact Hrun|].
  apply (buildWithDefaults_plain_env (H := Demo.ext) ctx build _
           Demo_builderKeepsFields); [|exact Hrun].
  intros v Hv. cbn in Hv.
  apply elem_of_cons in Hv as [->|Hv]; [reflexivity|].
  apply list_elem_of_singleton in Hv as ->. reflexivity.
Defined.

(** ** Where the error of a hook comes from *)

Section HookErrors.
Context `{External}.

(** After the hooks before it have succeeded, a hook stops the runner
    with the bare error of the first of its steps that fails, checked in
    this order: the entries of its [Env], its [Dir], its [Cmd], the
    splitting of the command line into words.  A template error is
    returned before anything is logged or started for the hook; the
    splitting fails after the line [running hook] has been logged and
    before any subprocess is started. *)
Theorem runHook_error_sources ctx opts buildEnv before hook rest st st1 err :
  let tp := Template.WithBuildOptions opts (Template.New ctx) in
  let base := Context.Env ctx ++ buildEnv in
  runHook ctx opts buildEnv before st = (Done None, st1) ->
  (appendHookEnv tp (Hook.Env hook) base = Error err ->
   runHook ctx opts buildEnv (before ++ hook :: rest) st = (Done (Some err), st1)) /\
  (forall env,
      appendHookEnv tp (Hook.Env hook) base = Ok env ->
      tmpl_Apply tp (Hook.Dir hook) = Error err ->
      runHook ctx opts buildEnv (before ++ hook :: rest) st = (Done (Some err), st1)) /\
  (forall env dir,
      appendHookEnv tp (Hook.Env hook) base = Ok env ->
      tmpl_Apply tp (Hook.Dir hook) = Ok dir ->
      tmpl_Apply (Template.WithEnvS env tp) (Hook.Cmd hook) = Error err ->
      runHook ctx opts buildEnv (before ++ hook :: rest) st = (Done (Some err), st1)) /\
  (forall env dir sh,
      appendHookEnv tp (Hook.Env hook) base = Ok env ->
      tmpl_Apply tp (Hook.Dir hook) = Ok dir ->
      tmpl_Apply (Template.WithEnvS env tp) (Hook.Cmd hook) = Ok sh ->
      shellwords_Parse sh = Error err ->
      runHook ctx opts buildEnv (before ++ hook :: rest) st
      = (Done (Some err),
         after (Logged Info [("hook", VString sh)] "running hook") st1)).
Proof.
  intros tp base Hbefore.
  rewrite (runHook_app _ _ _ _ _ _ _ Hbefore). cbn [runHook].
  unfold bind at 1 2 3 4, hookBody. cbn [app]. fold tp. fold base.
  repeat split.
  - intros ->. reflexivity.
  - intros env -> ->. reflexivity.
  - intros env dir -> -> ->. reflexivity.
  - intros env dir sh -> -> ->. unfold bind, log, emit. intros ->. reflexivity.
Qed.

End HookErrors.

Lemma runHook_error_sources_witness :
  let ctx := Demo.context [] in
  let quiet := Demo.hook "echo hi" [] in
  let bad_env := Demo.hook "touch a" ["X={{ .Missing }}"] in
  let bad_cmd := Demo.hook "echo {{ .Missing }}" [] in
  let bad_words := Demo.hook "echo 'unclosed" [] in
  let run hook :=
    runHook (H := Demo.ext) ctx Demo.linux_amd64 [] [quiet; hook; quiet] Demo.start in
  fst (run bad_env) = Done (Some (Failure "template: no such field")) /\
  fst (run bad_cmd) = Done (Some (Failure "template: no such field")) /\
  fst (run bad_words) = Done (Some (Failure "invalid command line string")) /\
  subprocesses (trace (snd (run bad_env))) = 1 /\
  subprocesses (trace (snd (run bad_words))) = 1.
Proof.
  intros ctx quiet bad_env bad_cmd bad_words run.
  assert (Hquiet : exists st1,
             runHook (H := Demo.ext) ctx Demo.linux_amd64 [] [quiet] Demo.start
             = (Done None, st1)) by (eexists; vm_compute; reflexivity).
  destruct Hquiet as (st1 & Hquiet).
  split; [|split; [|split]].
  - destruct (runHook_error_sources (H := Demo.ext) ctx Demo.linux_amd64 []
                [quiet] bad_env [quiet] Demo.start st1
                (Failure "template: no such field") Hquiet) as (Henv & _).
    unfold run. change [quiet; bad_env; quiet] with ([quiet] ++ bad_env :: [quiet]).
    rewrite Henv by reflexivity. reflexivity.
  - destruct (runHook_error_sources (H := Demo.ext) ctx Demo.linux_amd64 []
                [quiet] bad_cmd [quiet] Demo.start st1
                (Failure "template: no such field") Hquiet) as (_ & _ & Hcmd & _).
    unfold run. change [quiet; bad_cmd; quiet] with ([quiet] ++ bad_cmd :: [quiet]).
    erewrite Hcmd by reflexivity. reflexivity.
  - destruct (runHook_error_sources (H := Demo.ext) ctx Demo.linux_amd64 []
                [quiet] bad_words [quiet] Demo.start st1
                (Failure "invalid command line string") Hquiet)
      as (_ & _ & _ & Hwords).
    unfold run. change [quiet; bad_words; quiet] with ([quiet] ++ bad_words :: [quiet]).
    erewrite Hwords by reflexivity. reflexivity.
  - split; vm_compute; reflexivity.
Defined.

Lemma proxy_calls_in_order_witness :
  let build := Demo.proxied "app" "golang.org/x/tools" "v0.1.0" ["linux_amd64"] in
  (exists build' r evs,
      fst (proxy (H := Demo.ext) (Demo.context_in "/locked" [build]) build Demo.start)
      = Done (build', r) /\
      calls evs = [Mkdir "/locked/build_app"] /\
      build' = build /\
      r = Some (Errorf "failed to proxy module: %w" [] (Failure "permission denied"))) /\
  (exists build' r evs,
      fst (proxy (H := Demo.ext) (Demo.context_in "/bad" [build]) build Demo.start)
      = Done (build', r) /\
      length (calls evs) = 7 /\
      build' = build /\
      r = Some (Errorf "failed to proxy module: %w: %s" ["boom"] Demo.exit1)).
Proof.
  intros build. split.
  - destruct (proxy_calls_in_order (H := Demo.ext) (Demo.context_in "/locked" [build])
                build Demo.start) as (build' & r & evs & Hout & _ & [Hran _]).
    exists build', r, evs. split; [exact Hout|].
    specialize (Hran "golang.org/x/tools" "v0.1.0" _ _
                  (conj eq_refl (conj eq_refl (conj eq_refl eq_refl)))).
    destruct Hran as (Hcalls & _ & Hfailed). cbn in Hfailed.
    destruct Hfailed as [-> ->]. split; [exact Hcalls|]. split; reflexivity.
  - destruct (proxy_calls_in_order (H := Demo.ext) (Demo.context_in "/bad" [build])
                build Demo.start) as (build' & r & evs & Hout & _ & [Hran _]).
    exists build', r, evs. split; [exact Hout|].
    specialize (Hran "golang.org/x/tools" "v0.1.0" _ _
                  (conj eq_refl (conj eq_refl (conj eq_refl eq_refl)))).
    destruct Hran as (Hcalls & _ & Hfailed). cbn in Hfailed.
    destruct Hfailed as [-> ->]. rewrite Hcalls. split; [|split]; reflexivity.
Defined.
